(** * tidal: the focus monitor's detection loop and the App shell

    A shallow embedding of [src/WorkScreen.jsx] (model loading, the
    [runDetection] tick, the start/stop effect) and of the App shell's
    [navigate], followed by the properties of the detection-trigger loop.

    JavaScript numbers are IEEE 754 binary64 values: they are modelled by
    [spec_float] with precision 53 and maximal exponent 1024, and every
    arithmetic operation and comparison of the source is the corresponding
    IEEE operation.  Asynchronous code is modelled by an explicit world
    state (component state cells, pending timers, the suspended tick) and a
    step function driven by the environment's inputs. *)

From Stdlib Require Import ZArith NArith List String Bool Lia Permutation.
From Stdlib Require Import Floats.SpecFloat.
Import ListNotations.
Open Scope string_scope.
Open Scope list_scope.
Open Scope Z_scope.

(** ** JavaScript numbers *)

Module JSNumber.

Definition number : Type := spec_float.

Definition prec : Z := 53.
Definition emax : Z := 1024.

(** An integer as a number (exact below 2^53, rounded to nearest even
    above). *)
Definition of_Z (z : Z) : number := binary_normalize prec emax z 0 false.

(** The decimal literal [m * 10^-k] for [m] and [10^k] below 2^53: the
    quotient of two exactly represented integers, correctly rounded, is the
    binary64 value nearest to the decimal, which is how a numeric literal
    is read. *)
Definition literal (m : Z) (k : Z) : number :=
  SFdiv prec emax (of_Z m) (of_Z (10 ^ k)).

Definition add (a b : number) : number := SFadd prec emax a b.
Definition mul (a b : number) : number := SFmul prec emax a b.
Definition sub (a b : number) : number := SFsub prec emax a b.

(** [a < b] and [a > b]; both are false as soon as one side is NaN. *)
Definition lt (a b : number) : bool := SFltb a b.
Definition gt (a b : number) : bool := SFltb b a.

(** The 53-bit mantissa of the positive integer [q] once normalised
    (used to state what [of_Z] and the exact operations return). *)
Definition mant53 (q : positive) : positive :=
  Z.to_pos (Zpos q * 2 ^ (53 - Zpos (digits2_pos q))).

End JSNumber.

Import JSNumber.

(** ** WorkScreen.jsx: parameters *)

Definition DETECTION_INTERVAL_MS : N := 400%N.
Definition CONFIDENCE_THRESHOLD : number := literal 65 2.   (* 0.65 *)
Definition UPPER_HALF_THRESHOLD : number := literal 5 1.    (* 0.5 *)

Module SCREENS.
Definition WORK : string := "work".
Definition ALERT : string := "alert".
Definition MEME : string := "meme".
Definition STATS : string := "stats".
End SCREENS.

(** ** Data *)

(** One result of [model.detect]: Coco-SSD's [{bbox: [x, y, width, height],
    class, score}]. *)
Record prediction : Type := {
  bbox : number * number * number * number;
  class : string;
  score : number
}.

(** The top edge of the box: the [y] of [const [x, y, width, height] =
    prediction.bbox]. *)
Definition bbox_y (p : prediction) : number :=
  let '(_, y, _, _) := bbox p in y.

(** The [HTMLVideoElement] behind the webcam ref: [readyState] is an
    unsigned short, [videoHeight] an unsigned long. *)
Record video : Type := {
  readyState : N;
  videoHeight : N
}.

(** The second argument of [navigate]: an object whose [insult] field may be
    absent. *)
Record payload : Type := {
  insult_field : option string
}.

(** An opaque handle on a loaded Coco-SSD model. *)
Definition model_handle : Type := N.

(** What the code does to the outside world, in the order it does it. *)
Inductive event : Type :=
| TfReady                                   (* tf.ready() *)
| CocoLoad                                  (* cocoSsd.load({base: 'mobilenet_v2'}) *)
| ConsoleError                              (* console.error("Failed to load model:", error) *)
| Detect (m : model_handle) (v : video)     (* model.detect(video) *)
| ConsoleLog (cls : string) (sc y : number) (upper : bool)
                                            (* console.log(`[ALERT] Found ...`) *)
| NavigateCall (screen : string) (data : option payload)
| SetTimeout (id : N) (delay : N)
| ClearTimeout (id : N)
| UnhandledRejection.                       (* a rejected promise nobody awaits *)

(** [videoHeight], an unsigned long, as the number the code computes with. *)
Definition frame_height (h : N) : number := of_Z (Z.of_N h).

(** ** WorkScreen.jsx: the trigger logic check (lines 53-71) *)

(** [Array.prototype.some] with a callback that may log: the callback is
    applied from the first element on and the traversal stops at the first
    element for which it answers true. *)
Fixpoint some {A : Type} (cb : A -> list event * bool) (l : list A)
  : list event * bool :=
  match l with
  | [] => ([], false)
  | a :: l' =>
      let (log, b) := cb a in
      if b then (log, true)
      else let (log', b') := some cb l' in (log ++ log', b')
  end.

(** The arrow function handed to [predictions.some]. *)
Definition distracted_callback (videoHeight : number) (p : prediction)
  : list event * bool :=
  let '(x, y, width, height) := bbox p in
  let isPhone := (class p =? "cell phone")%string || (class p =? "remote")%string in
  let isHighConfidence := gt (score p) CONFIDENCE_THRESHOLD in
  let isUpperHalf := lt y (mul videoHeight UPPER_HALF_THRESHOLD) in
  let log :=
    if isPhone && isHighConfidence
    then [ConsoleLog (class p) (score p) y isUpperHalf]
    else [] in
  (log, isPhone && isHighConfidence && isUpperHalf).

(** [const distracted = predictions.some(...)], with what it logged. *)
Definition distracted_run (videoHeight : number) (predictions : list prediction)
  : list event * bool :=
  some (distracted_callback videoHeight) predictions.

Definition distracted (videoHeight : number) (predictions : list prediction)
  : bool :=
  snd (distracted_run videoHeight predictions).

(** ** App shell (src/unnamed/part_000) *)

Record app_state : Type := {
  currentScreen : string;       (* useState(SCREENS.WORK) *)
  insult : string;              (* useState("") *)
  distractionCount : number     (* useState(0) *)
}.

Definition App_initial : app_state :=
  {| currentScreen := SCREENS.WORK; insult := ""; distractionCount := of_Z 0 |}.

(** [value || fallback] for a string field that may be absent: undefined and
    the empty string are the falsy cases. *)
Definition or_else (value : option string) (fallback : string) : string :=
  match value with
  | Some s => if (s =? "")%string then fallback else s
  | None => fallback
  end.

(** [navigate(screen, data = {})] (lines 24-30).  The three setters are
    applied to the state the call started from; [setDistractionCount] is
    given an updater, so it adds one to the count that is current. *)
Definition navigate (screen : string) (data : option payload) (st : app_state)
  : app_state :=
  let data := match data with Some d => d | None => {| insult_field := None |} end in
  let st' :=
    if (screen =? SCREENS.ALERT)%string
    then {| currentScreen := currentScreen st;
            insult := or_else (insult_field data) "You were caught!";
            distractionCount := add (distractionCount st) (of_Z 1) |}
    else st in
  {| currentScreen := screen;
     insult := insult st';
     distractionCount := distractionCount st' |}.

(** [renderScreen]: which screens keep the WorkScreen component on screen
    (the [WORK] case and the [default] case). *)
Definition renders_WorkScreen (screen : string) : bool :=
  negb ((screen =? SCREENS.ALERT)%string
        || (screen =? SCREENS.MEME)%string
        || (screen =? SCREENS.STATS)%string).

(** ** WorkScreen.jsx: the component as a state machine

    One mounting of [WorkScreen] inside [App], each effect run once when it
    mounts.  The world holds the App state, the component's state cells, the
    browser's pending timers, the ticks suspended at
    [await model.detect(video)], and the trace of everything the code did.
    While the work screen is shown nothing re-renders [App], so the
    [navigate] prop, and with it [runDetection], changes only when [model]
    does. *)

(** Where [loadModel] (lines 25-36) is suspended. *)
Inductive load_phase : Type :=
| AwaitTfReady        (* at [await tf.ready()] *)
| AwaitCocoLoad       (* at [await cocoSsd.load(...)] *)
| LoadFinished.       (* the try or the catch block has run *)

Record world : Type := {
  app : app_state;
  mounted : bool;                         (* WorkScreen is rendered; webcamRef.current is set *)
  model : option model_handle;            (* useState(null) *)
  status : string;                        (* useState("Loading AI Model...") *)
  phase : load_phase;
  timerId : option N;                     (* [let timerId] of the current loop effect *)
  timers : list (N * option model_handle);
     (* pending timeouts, oldest first: the id, and the [model] captured by
        the [runDetection] closure that the timeout will call *)
  next_id : N;                            (* the id setTimeout hands out next *)
  inflight : list (option model_handle * N);
     (* ticks suspended at line 50, oldest first: the captured [model] and
        the [videoHeight] read at line 47 *)
  ticks : nat;                            (* how many times runDetection's body was entered *)
  trace : list event
}.

Definition emit (es : list event) (w : world) : world :=
  {| app := app w; mounted := mounted w; model := model w; status := status w;
     phase := phase w; timerId := timerId w; timers := timers w;
     next_id := next_id w; inflight := inflight w; ticks := ticks w;
     trace := trace w ++ es |}.

Definition set_app (a : app_state) (w : world) : world :=
  {| app := a; mounted := mounted w; model := model w; status := status w;
     phase := phase w; timerId := timerId w; timers := timers w;
     next_id := next_id w; inflight := inflight w; ticks := ticks w;
     trace := trace w |}.

Definition set_mounted (b : bool) (w : world) : world :=
  {| app := app w; mounted := b; model := model w; status := status w;
     phase := phase w; timerId := timerId w; timers := timers w;
     next_id := next_id w; inflight := inflight w; ticks := ticks w;
     trace := trace w |}.

Definition setModel (m : option model_handle) (w : world) : world :=
  {| app := app w; mounted := mounted w; model := m; status := status w;
     phase := phase w; timerId := timerId w; timers := timers w;
     next_id := next_id w; inflight := inflight w; ticks := ticks w;
     trace := trace w |}.

Definition setStatus (s : string) (w : world) : world :=
  {| app := app w; mounted := mounted w; model := model w; status := s;
     phase := phase w; timerId := timerId w; timers := timers w;
     next_id := next_id w; inflight := inflight w; ticks := ticks w;
     trace := trace w |}.

Definition set_phase (p : load_phase) (w : world) : world :=
  {| app := app w; mounted := mounted w; model := model w; status := status w;
     phase := p; timerId := timerId w; timers := timers w;
     next_id := next_id w; inflight := inflight w; ticks := ticks w;
     trace := trace w |}.

Definition set_timerId (t : option N) (w : world) : world :=
  {| app := app w; mounted := mounted w; model := model w; status := status w;
     phase := phase w; timerId := t; timers := timers w;
     next_id := next_id w; inflight := inflight w; ticks := ticks w;
     trace := trace w |}.

Definition set_timers (ts : list (N * option model_handle)) (w : world) : world :=
  {| app := app w; mounted := mounted w; model := model w; status := status w;
     phase := phase w; timerId := timerId w; timers := ts;
     next_id := next_id w; inflight := inflight w; ticks := ticks w;
     trace := trace w |}.

Definition set_next_id (n : N) (w : world) : world :=
  {| app := app w; mounted := mounted w; model := model w; status := status w;
     phase := phase w; timerId := timerId w; timers := timers w;
     next_id := n; inflight := inflight w; ticks := ticks w;
     trace := trace w |}.

Definition set_inflight (fl : list (option model_handle * N)) (w : world) : world :=
  {| app := app w; mounted := mounted w; model := model w; status := status w;
     phase := phase w; timerId := timerId w; timers := timers w;
     next_id := next_id w; inflight := fl; ticks := ticks w;
     trace := trace w |}.

Definition count_tick (w : world) : world :=
  {| app := app w; mounted := mounted w; model := model w; status := status w;
     phase := phase w; timerId := timerId w; timers := timers w;
     next_id := next_id w; inflight := inflight w; ticks := S (ticks w);
     trace := trace w |}.

(** *** The browser's timers *)

(** [setTimeout(runDetection, delay)]: queues the closure (represented by the
    model it captured) and returns the new timer's id. *)
Definition setTimeout (captured : option model_handle) (delay : N) (w : world)
  : N * world :=
  let id := next_id w in
  (id, emit [SetTimeout id delay]
         (set_next_id (id + 1)%N (set_timers (timers w ++ [(id, captured)]) w))).

(** [clearTimeout(id)]: drops the pending timeout with that id, if any. *)
Definition clearTimeout (id : N) (w : world) : world :=
  emit [ClearTimeout id]
    (set_timers (filter (fun t => negb (fst t =? id)%N) (timers w)) w).

(** *** Start/stop loop management (lines 96-109) *)

(** The effect's body: [let timerId; if (model) timerId = setTimeout(...)]. *)
Definition loop_effect (w : world) : world :=
  match model w with
  | Some m =>
      let (id, w') := setTimeout (Some m) DETECTION_INTERVAL_MS w in
      set_timerId (Some id) w'
  | None => set_timerId None w
  end.

(** The effect's cleanup: [if (timerId) clearTimeout(timerId)]. *)
Definition loop_cleanup (w : world) : world :=
  match timerId w with
  | Some id => if (id =? 0)%N then w else clearTimeout id w
  | None => w
  end.

(** WorkScreen leaves the screen: the cleanup runs and the webcam ref is
    reset to null. *)
Definition unmount (w : world) : world :=
  set_mounted false (loop_cleanup w).

(** A call of the App's [navigate], with the re-render it causes. *)
Definition call_navigate (screen : string) (data : option payload) (w : world)
  : world :=
  let w1 := set_app (navigate screen data (app w)) (emit [NavigateCall screen data] w) in
  if mounted w1 && negb (renders_WorkScreen screen) then unmount w1 else w1.

(** *** Model loading (lines 24-38) *)

(** The [catch] block. State setters of a component that has left the screen
    do nothing. *)
Definition loadModel_catch (w : world) : world :=
  let w1 := set_phase LoadFinished (emit [ConsoleError] w) in
  if mounted w1 then setStatus "Error loading AI. Check console." w1 else w1.

(** The end of the [try] block, [setModel(loadedModel); setStatus(...)], and
    the re-render that follows: [model] changed, so the loop effect is
    cleaned up and run again. *)
Definition loadModel_done (loadedModel : model_handle) (w : world) : world :=
  let w1 := set_phase LoadFinished w in
  if mounted w1
  then loop_effect
         (loop_cleanup
            (setStatus "AI Ready. Get to work!" (setModel (Some loadedModel) w1)))
  else w1.

(** *** Detection logic (lines 41-92) *)

Definition mockInsult : string :=
  "Seriously, another tab? Truly groundbreaking procrastination. Get back to the code!".

(** The guard of line 43: the model and the video to run it on, when the
    model is loaded, the webcam ref is set and the video has enough data. *)
Definition guard (model : option model_handle) (webcamRef_current : option video)
  : option (model_handle * video) :=
  match model, webcamRef_current with
  | Some m, Some v => if (readyState v =? 4)%N then Some (m, v) else None
  | _, _ => None
  end.

(** [runDetection] from its call to the [await] of line 50 or, when the guard
    fails, to its end at line 91. *)
Definition runDetection_call (model : option model_handle)
    (webcamRef_current : option video) (w : world) : world :=
  match guard model webcamRef_current with
  | Some (m, v) =>
      emit [Detect m v] (set_inflight (inflight w ++ [(model, videoHeight v)]) w)
  | None => snd (setTimeout model DETECTION_INTERVAL_MS w)
  end.

(** [runDetection] from the settling of [model.detect(video)] to its end:
    a rejection leaves the function at once (there is no try/catch around the
    await) and becomes an unhandled rejection of the promise that
    [runDetection] returned. *)
Definition runDetection_resume (model : option model_handle) (videoHeight : N)
    (result : option (list prediction)) (w : world) : world :=
  match result with
  | None => emit [UnhandledRejection] w
  | Some predictions =>
      let (log, is_distracted) := distracted_run (frame_height videoHeight) predictions in
      let w1 := emit log w in
      if is_distracted
      then call_navigate SCREENS.ALERT (Some {| insult_field := Some mockInsult |}) w1
      else snd (setTimeout model DETECTION_INTERVAL_MS w1)
  end.

(** *** The environment *)

Inductive input : Type :=
| TfReadySettles (ok : bool)
| CocoLoadSettles (loaded : option model_handle)     (* None: the promise rejects *)
| TimerFires (v : video)
    (* the oldest pending timeout comes due; [v] is the video element's state
       at that moment *)
| DetectSettles (result : option (list prediction))  (* None: the promise rejects *)
| ClickViewStats                                     (* navigate(SCREENS.STATS) *)
| ClickWorkMode.                                     (* navigate(SCREENS.WORK) *)

Definition step (w : world) (i : input) : world :=
  match i with
  | TfReadySettles ok =>
      match phase w with
      | AwaitTfReady =>
          if ok then set_phase AwaitCocoLoad (emit [CocoLoad] w)
          else loadModel_catch w
      | _ => w
      end
  | CocoLoadSettles loaded =>
      match phase w with
      | AwaitCocoLoad =>
          match loaded with
          | Some m => loadModel_done m w
          | None => loadModel_catch w
          end
      | _ => w
      end
  | TimerFires v =>
      match timers w with
      | [] => w
      | (_, captured) :: rest =>
          runDetection_call captured (if mounted w then Some v else None)
            (count_tick (set_timers rest w))
      end
  | DetectSettles result =>
      match inflight w with
      | [] => w
      | (captured, h) :: rest =>
          runDetection_resume captured h result (set_inflight rest w)
      end
  | ClickViewStats => call_navigate SCREENS.STATS None w
  | ClickWorkMode => call_navigate SCREENS.WORK None w
  end.

Definition run (w : world) (script : list input) : world :=
  fold_left step script w.

(** WorkScreen has just been mounted on the work screen: both effects have
    run once, so [loadModel] is waiting for [tf.ready()] and the loop effect
    found no model. *)
Definition initial : world :=
  {| app := App_initial; mounted := true; model := None;
     status := "Loading AI Model..."; phase := AwaitTfReady;
     timerId := None; timers := []; next_id := 1%N; inflight := [];
     ticks := 0%nat; trace := [TfReady] |}.

(** *** Observations on a world *)

Definition is_trigger (e : event) : bool :=
  match e with
  | NavigateCall screen (Some _) => (screen =? SCREENS.ALERT)%string
  | _ => false
  end.

Definition is_detect (e : event) : bool :=
  match e with Detect _ _ => true | _ => false end.

Definition is_schedule (e : event) : bool :=
  match e with SetTimeout _ _ => true | _ => false end.

Definition is_load_call (e : event) : bool :=
  match e with TfReady | CocoLoad => true | _ => false end.

Definition count (f : event -> bool) (w : world) : nat :=
  List.length (filter f (trace w)).

(** Something of the loop is still to come: a pending timeout or a tick in
    the middle of its inference. *)
Definition scheduled (w : world) : nat :=
  (List.length (timers w) + List.length (inflight w))%nat.

(** ** Vocabulary of the statements *)

(** The watched-object set. *)
Definition watched (cls : string) : Prop :=
  cls = "cell phone" \/ cls = "remote".

(** A detection that is a watched object, seen with a score above 0.65, whose
    top edge is above the middle of a frame of height [h]. *)
Definition triggering (h : number) (d : prediction) : Prop :=
  watched (class d)
  /\ gt (score d) CONFIDENCE_THRESHOLD = true
  /\ lt (bbox_y d) (mul h UPPER_HALF_THRESHOLD) = true.

(** Two detections that agree on everything but the box's x, width and
    height. *)
Definition same_class_score_y (d1 d2 : prediction) : Prop :=
  class d1 = class d2 /\ score d1 = score d2 /\ bbox_y d1 = bbox_y d2.


(** Sample data: the scenario of a phone held up in a 640x480 frame. *)
Definition sample_detection (cls : string) (sc : number) (y : number) : prediction :=
  {| bbox := (of_Z 10, y, of_Z 100, of_Z 150); class := cls; score := sc |}.

Definition sample_phone : prediction :=
  sample_detection "cell phone" (literal 9 1) (of_Z 50).

(** What every world reached from [initial] satisfies: at most one tick is
    pending or running; nothing has happened before the model load finished;
    and a trigger, once emitted, is the only one and leaves nothing
    scheduled. *)
Definition single_chain (w : world) : Prop :=
  (scheduled w <= 1)%nat
  /\ (phase w <> LoadFinished ->
        scheduled w = 0%nat /\ ticks w = 0%nat /\ model w = None
        /\ count is_trigger w = 0%nat /\ count is_detect w = 0%nat
        /\ count is_schedule w = 0%nat)
  /\ (count is_trigger w = 0%nat
       \/ (count is_trigger w = 1%nat /\ scheduled w = 0%nat)).

(** The loop is over for this mounting: the load has finished and nothing is
    pending or running. *)
Definition halted (w : world) : Prop :=
  phase w = LoadFinished /\ scheduled w = 0%nat.

(** Sample video states. *)
Definition video_playing : video := {| readyState := 4; videoHeight := 480 |}.
Definition video_starting : video := {| readyState := 1; videoHeight := 0 |}.

(** The model loads, the first tick runs on a playing video, and its
    inference call rejects. *)
Definition script_inference_rejects : list input :=
  [TfReadySettles true; CocoLoadSettles (Some 7%N);
   TimerFires video_playing; DetectSettles None].

(** The model loads, the first tick finds the video not ready and schedules
    the second one, and the user leaves for the stats screen during the gap. *)
Definition script_leave_during_gap : list input :=
  [TfReadySettles true; CocoLoadSettles (Some 7%N);
   TimerFires video_starting; ClickViewStats].

(** The model loads and the user leaves before the first tick. *)
Definition script_leave_before_first_tick : list input :=
  [TfReadySettles true; CocoLoadSettles (Some 7%N); ClickViewStats].

(** The model loads and the first tick starts its inference on a playing
    video. *)
Definition script_until_inference : list input :=
  [TfReadySettles true; CocoLoadSettles (Some 7%N); TimerFires video_playing].

(** ** The rest of the two components *)

(** What [renderScreen] (App, lines 33-56) puts on screen, with the props
    that carry state. *)
Inductive screen_component : Type :=
| WorkScreenView                                   (* <WorkScreen navigate setInsult /> *)
| AlertScreenView (insult : string) (memeText : string)
| MemeScreenView (memeText : string)
| StatsScreenView (count : number).

Definition renderScreen (st : app_state) : screen_component :=
  if (currentScreen st =? SCREENS.WORK)%string then WorkScreenView
  else if (currentScreen st =? SCREENS.ALERT)%string
       then AlertScreenView (insult st) "Generated Meme Text"
  else if (currentScreen st =? SCREENS.MEME)%string then MemeScreenView "The Meme"
  else if (currentScreen st =? SCREENS.STATS)%string
       then StatsScreenView (distractionCount st)
  else WorkScreenView.

(** The colour class of the status line (WorkScreen, line 119):
    [model ? 'text-green-600' : 'text-red-600']. *)
Definition status_class (model : option model_handle) : string :=
  match model with
  | Some _ => "text-green-600"
  | None => "text-red-600"
  end.

Definition is_tf_ready (e : event) : bool :=
  match e with TfReady => true | _ => false end.

Definition is_coco_load (e : event) : bool :=
  match e with CocoLoad => true | _ => false end.

(** A [model.detect] call made on a video with enough data, with model [m]. *)
Definition detect_uses (model : option model_handle) (e : event) : Prop :=
  match e with
  | Detect m v => readyState v = 4%N /\ model = Some m
  | _ => True
  end.

Definition timeout_is_400 (e : event) : Prop :=
  match e with
  | SetTimeout _ delay => delay = DETECTION_INTERVAL_MS
  | _ => True
  end.

(** The component's cells agree with each other and with what is queued:
    every queued or suspended [runDetection] closure captured the model that
    is set; before the load finishes nothing is set or queued; afterwards the
    status says whether a model is there. *)
Definition coherent (w : world) : Prop :=
  Forall (fun t => snd t = model w) (timers w)
  /\ Forall (fun t => fst t = model w) (inflight w)
  /\ Forall (detect_uses (model w)) (trace w)
  /\ (phase w <> LoadFinished ->
        model w = None /\ status w = "Loading AI Model..."
        /\ timerId w = None /\ timers w = [] /\ inflight w = [])
  /\ (phase w = LoadFinished ->
        (model w <> None /\ status w = "AI Ready. Get to work!")
        \/ (model w = None /\ timers w = [] /\ inflight w = []
            /\ (status w = "Error loading AI. Check console."
                \/ status w = "Loading AI Model..."))).

(** Every tick came from a timeout, each tick calls the model at most once, every
    timeout waits 400 ms, the loading calls are made once, and the App's
    count is the number of triggers. *)
Definition accounted (w : world) : Prop :=
  (ticks w + List.length (timers w) <= count is_schedule w)%nat
  /\ (count is_detect w <= ticks w)%nat
  /\ Forall timeout_is_400 (trace w)
  /\ count is_tf_ready w = 1%nat
  /\ match phase w with
     | AwaitTfReady => count is_coco_load w = 0%nat
     | AwaitCocoLoad => count is_coco_load w = 1%nat
     | LoadFinished => (count is_coco_load w <= 1)%nat
     end
  /\ distractionCount (app w) = of_Z (Z.of_nat (count is_trigger w)).

(** Before the first tick the only timeout there can be is the one the loop
    effect remembers, and none is left once the component is gone. *)
Definition fresh_loop (w : world) : Prop :=
  (1 <= next_id w)%N
  /\ (ticks w = 0%nat ->
        inflight w = []
        /\ (timers w = []
            \/ exists id captured,
                 timers w = [(id, captured)] /\ timerId w = Some id
                 /\ id <> 0%N /\ mounted w = true)).

(** The component is gone and nothing of its loop is left. *)
Definition dormant (w : world) : Prop :=
  mounted w = false /\ scheduled w = 0%nat.

(** * Properties *)

(** ** Binary64 arithmetic on the values the code meets *)

Section Binary64.

Lemma digits2_size p : digits2_pos p = Pos.size p.
Proof. induction p; simpl; congruence. Qed.

Lemma digits2_log2 p : Zpos (digits2_pos p) = Z.log2 (Zpos p) + 1.
Proof. rewrite digits2_size. destruct p; simpl; lia. Qed.

Lemma digits2_le p q :
  (p <= q)%positive -> Zpos (digits2_pos p) <= Zpos (digits2_pos q).
Proof.
  intros H. rewrite !digits2_log2.
  apply Z.add_le_mono_r, Z.log2_le_mono. lia.
Qed.

Lemma digits2_bound p k :
  0 <= k -> Zpos p < 2 ^ k -> Zpos (digits2_pos p) <= k.
Proof.
  intros Hk H. rewrite digits2_log2.
  assert (Z.log2 (Zpos p) < k) by (apply Z.log2_lt_pow2; lia). lia.
Qed.

Lemma iter_xO_Z q j : Zpos (Pos.iter xO q j) = Zpos q * 2 ^ Zpos j.
Proof.
  induction j as [|j IH] using Pos.peano_ind.
  - simpl. lia.
  - rewrite Pos.iter_succ, Pos2Z.inj_succ, Z.pow_succ_r by lia.
    rewrite Pos2Z.inj_xO, IH. ring.
Qed.

Lemma digits2_mul_pow2 q m k :
  0 <= k -> Zpos m = Zpos q * 2 ^ k ->
  Zpos (digits2_pos m) = Zpos (digits2_pos q) + k.
Proof.
  intros Hk E. rewrite !digits2_log2, E, Z.log2_mul_pow2 by lia. lia.
Qed.

Lemma iter_pos_iter {A} (f : A -> A) n :
  forall x, iter_pos f n x = Pos.iter f x n.
Proof.
  induction n as [n IH|n IH|]; intros x; simpl.
  - rewrite !IH. now rewrite <- !Pos.iter_swap.
  - now rewrite !IH.
  - reflexivity.
Qed.

(** Shifting out zeros loses nothing. *)
Lemma shr_1_iter_xO j q :
  iter_pos shr_1 j (Build_shr_record (Zpos (Pos.iter xO q j)) false false)
  = Build_shr_record (Zpos q) false false.
Proof.
  rewrite iter_pos_iter.
  induction j as [|j IH] using Pos.peano_ind.
  - reflexivity.
  - rewrite Pos.iter_succ_r, Pos.iter_succ. simpl. exact IH.
Qed.

Lemma shl_align_fst_Z m ex ex' :
  ex' <= ex -> Zpos (fst (shl_align m ex ex')) = Zpos m * 2 ^ (ex - ex').
Proof.
  intros H. unfold shl_align.
  destruct (ex' - ex) as [|j|j] eqn:E; cbn [fst]; try lia.
  - replace (ex - ex') with 0 by lia. lia.
  - rewrite iter_xO_Z. f_equal. f_equal. lia.
Qed.

(** A 53-bit mantissa with an exponent in range is left as it is. *)
Lemma round_aux_canonical s m e :
  Zpos (digits2_pos m) = 53 -> -1074 <= e <= 971 ->
  binary_round_aux 53 1024 s (Zpos m) e loc_Exact = S754_finite s m e.
Proof.
  intros Hd He.
  unfold binary_round_aux, shr_fexp, fexp, emin.
  cbn [Zdigits2 shr_record_of_loc]. rewrite Hd.
  replace (Z.max (53 + e - 53) (3 - 1024 - 53) - e) with 0 by lia.
  cbn [shr shr_m loc_of_shr_record round_nearest_even Zdigits2 shr_record_of_loc].
  rewrite Hd.
  replace (Z.max (53 + e - 53) (3 - 1024 - 53) - e) with 0 by lia.
  cbn [shr shr_m].
  destruct (Z.leb_spec e (1024 - 53)); [reflexivity | lia].
Qed.

(** A 53-bit mantissa followed by zeros is rounded to itself. *)
Lemma round_aux_shifted s m e j :
  Zpos (digits2_pos m) = 53 -> -1074 <= e <= 971 ->
  binary_round_aux 53 1024 s (Zpos (Pos.iter xO m j)) (e - Zpos j) loc_Exact
  = S754_finite s m e.
Proof.
  intros Hd He.
  pose proof (digits2_mul_pow2 m (Pos.iter xO m j) (Zpos j)
                ltac:(lia) (iter_xO_Z m j)) as Hdj.
  unfold binary_round_aux, shr_fexp, fexp, emin.
  cbn [Zdigits2 shr_record_of_loc]. rewrite Hdj, Hd.
  replace (Z.max (53 + Zpos j + (e - Zpos j) - 53) (3 - 1024 - 53) - (e - Zpos j))
    with (Zpos j) by lia.
  cbn [shr]. rewrite shr_1_iter_xO.
  cbn [shr_m loc_of_shr_record round_nearest_even Zdigits2 shr_record_of_loc].
  rewrite Hd.
  replace (Z.max (53 + (e - Zpos j + Zpos j) - 53) (3 - 1024 - 53)
           - (e - Zpos j + Zpos j)) with 0 by lia.
  cbn [shr shr_m].
  replace (e - Zpos j + Zpos j) with e by lia.
  destruct (Z.leb_spec e (1024 - 53)); [reflexivity | lia].
Qed.

(** Rounding [n * 2^e] is exact as soon as the value has a normal
    representation [m * 2^e']. *)
Lemma binary_round_exact s n e m e' :
  Zpos (digits2_pos m) = 53 -> -1074 <= e' <= 971 -> -1074 <= e ->
  Zpos n * 2 ^ (e + 1074) = Zpos m * 2 ^ (e' + 1074) ->
  binary_round 53 1024 s n e = S754_finite s m e'.
Proof.
  intros Hd He' He Hv.
  assert (Hcase : (e' <= e /\ Zpos m = Zpos n * 2 ^ (e - e'))
                  \/ (e < e' /\ Zpos n = Zpos m * 2 ^ (e' - e))).
  { destruct (Z_le_gt_dec e' e) as [L|G]; [left|right]; split; try lia.
    - replace (e + 1074) with ((e - e') + (e' + 1074)) in Hv by lia.
      rewrite (Z.pow_add_r 2 (e - e')), Z.mul_assoc in Hv by lia.
      apply Z.mul_cancel_r in Hv; [lia|]. apply Z.pow_nonzero; lia.
    - replace (e' + 1074) with ((e' - e) + (e + 1074)) in Hv by lia.
      rewrite (Z.pow_add_r 2 (e' - e)), Z.mul_assoc in Hv by lia.
      apply Z.mul_cancel_r in Hv; [exact Hv|]. apply Z.pow_nonzero; lia. }
  unfold binary_round, fexp, emin.
  destruct Hcase as [[L Hm]|[G Hn]].
  - pose proof (digits2_mul_pow2 n m (e - e') ltac:(lia) Hm) as Hdn.
    replace (Z.max (Zpos (digits2_pos n) + e - 53) (3 - 1024 - 53)) with e' by lia.
    unfold shl_align. destruct (e' - e) as [|j|j] eqn:Ej; try lia.
    + assert (e = e') by lia. subst e'. rewrite Z.sub_diag, Z.mul_1_r in Hm.
      injection Hm as ->. now apply round_aux_canonical.
    + replace (e - e') with (Zpos j) in Hm by lia.
      rewrite <- iter_xO_Z in Hm. injection Hm as <-.
      now apply round_aux_canonical.
  - pose proof (digits2_mul_pow2 m n (e' - e) ltac:(lia) Hn) as Hdn.
    replace (Z.max (Zpos (digits2_pos n) + e - 53) (3 - 1024 - 53)) with e' by lia.
    unfold shl_align. destruct (e' - e) as [|j|j] eqn:Ej; try lia.
    rewrite <- iter_xO_Z in Hn. injection Hn as ->.
    replace e with (e' - Zpos j) by lia. now apply round_aux_shifted.
Qed.

Lemma mant53_Z q :
  Zpos (digits2_pos q) <= 53 ->
  Zpos (mant53 q) = Zpos q * 2 ^ (53 - Zpos (digits2_pos q)).
Proof.
  intros Hd. unfold mant53. rewrite Z2Pos.id; [reflexivity|].
  apply Z.mul_pos_pos; [lia|]. apply Z.pow_pos_nonneg; lia.
Qed.

Lemma mant53_digits q :
  Zpos (digits2_pos q) <= 53 -> Zpos (digits2_pos (mant53 q)) = 53.
Proof.
  intros Hd.
  rewrite (digits2_mul_pow2 q (mant53 q) (53 - Zpos (digits2_pos q))); try lia.
  now apply mant53_Z.
Qed.

(** Rounding [q * 2^k * 2^e] for an integer [q] of at most 53 bits. *)
Lemma binary_round_int s n q k e :
  Zpos n = Zpos q * 2 ^ k -> 0 <= k ->
  Zpos (digits2_pos q) <= 53 -> -1074 <= e ->
  -1074 <= e + k + Zpos (digits2_pos q) - 53 <= 971 ->
  binary_round 53 1024 s n e
  = S754_finite s (mant53 q) (e + k + Zpos (digits2_pos q) - 53).
Proof.
  intros Hn Hk Hd He Hr.
  apply binary_round_exact; try lia.
  - now apply mant53_digits.
  - rewrite Hn, mant53_Z by lia.
    rewrite <- !Z.mul_assoc, <- !Z.pow_add_r by lia.
    f_equal. f_equal. lia.
Qed.

Lemma of_Z_pos p :
  Zpos (digits2_pos p) <= 53 ->
  of_Z (Zpos p) = S754_finite false (mant53 p) (Zpos (digits2_pos p) - 53).
Proof.
  intros Hd. unfold of_Z, binary_normalize, prec, emax.
  rewrite (binary_round_int false p p 0 0); try lia.
  reflexivity.
Qed.

(** The literals of the source, bit for bit. *)
Lemma CONFIDENCE_THRESHOLD_bits :
  CONFIDENCE_THRESHOLD = S754_finite false 5854679515581645 (-53).
Proof. vm_compute. reflexivity. Qed.

Lemma UPPER_HALF_THRESHOLD_bits :
  UPPER_HALF_THRESHOLD = S754_finite false 4503599627370496 (-53).
Proof. vm_compute. reflexivity. Qed.

Lemma one_bits : of_Z 1 = S754_finite false 4503599627370496 (-52).
Proof. vm_compute. reflexivity. Qed.

(** Halving an integer below 2^53 is exact. *)
Lemma mul_half p :
  Zpos (digits2_pos p) <= 53 ->
  mul (of_Z (Zpos p)) UPPER_HALF_THRESHOLD
  = S754_finite false (mant53 p) (Zpos (digits2_pos p) - 54).
Proof.
  intros Hd. rewrite of_Z_pos, UPPER_HALF_THRESHOLD_bits by assumption.
  unfold mul, SFmul, prec, emax. cbn [xorb].
  replace (mant53 p * 4503599627370496)%positive
    with (Pos.iter xO (mant53 p) 52)
    by (rewrite Pos.mul_comm; reflexivity).
  replace (Zpos (digits2_pos p) - 53 + -53)
    with (Zpos (digits2_pos p) - 54 - 52) by lia.
  apply round_aux_shifted; [now apply mant53_digits | lia].
Qed.

Lemma lt_irrefl a : lt a a = false.
Proof.
  unfold lt, SFltb.
  destruct a as [[|]|[|]| |s m e]; try reflexivity.
  destruct s; cbn [SFcompare]; rewrite Z.compare_refl;
    fold (Pos.compare m m); rewrite Pos.compare_refl; reflexivity.
Qed.

Lemma lt_pos_finite m1 e1 m2 e2 :
  e1 < e2 \/ (e1 = e2 /\ Zpos m1 < Zpos m2) ->
  lt (S754_finite false m1 e1) (S754_finite false m2 e2) = true.
Proof.
  intros [H|[-> H]]; unfold lt, SFltb, SFcompare.
  - now rewrite (proj2 (Z.compare_lt_iff e1 e2) H).
  - rewrite Z.compare_refl. fold (Pos.compare m1 m2).
    now rewrite (proj2 (Pos.compare_lt_iff m1 m2) H).
Qed.

(** One pixel above the middle line of a frame of integer height is
    strictly above it. *)
Lemma one_below_half h :
  0 <= h < 2 ^ 53 ->
  lt (sub (mul (of_Z h) UPPER_HALF_THRESHOLD) (of_Z 1))
     (mul (of_Z h) UPPER_HALF_THRESHOLD) = true.
Proof.
  intros [H0 H1].
  destruct h as [|p|p]; [vm_compute; reflexivity | | lia].
  destruct (Pos.eq_dec p 1) as [->|N1]; [vm_compute; reflexivity|].
  destruct (Pos.eq_dec p 2) as [->|N2]; [vm_compute; reflexivity|].
  assert (Hp : (3 <= p)%positive) by lia.
  pose proof (digits2_bound p 53 ltac:(lia) H1) as Hd.
  pose proof (digits2_le 3 p Hp) as Hd3. cbn in Hd3.
  rewrite mul_half, one_bits by assumption.
  unfold sub, SFsub, prec, emax.
  rewrite Z.min_r by lia. cbn [cond_Zopp].
  set (a := fst (shl_align (mant53 p) (Zpos (digits2_pos p) - 54) (-52))).
  assert (Ha : Zpos a = Zpos p * 2 ^ 51).
  { unfold a. rewrite shl_align_fst_Z, mant53_Z by lia.
    rewrite <- Z.mul_assoc, <- Z.pow_add_r by lia. f_equal. f_equal. lia. }
  replace (fst (shl_align 4503599627370496 (-52) (-52)))
    with 4503599627370496%positive by reflexivity.
  assert (Hq : Zpos a - 4503599627370496 = Zpos (p - 2) * 2 ^ 51).
  { rewrite Ha, Pos2Z.inj_sub by lia.
    change 4503599627370496 with (2 * 2 ^ 51). ring. }
  destruct (Zpos a - 4503599627370496) as [|n|n] eqn:En; try lia.
  unfold binary_normalize.
  assert (Hle : (p - 2 <= p)%positive) by lia.
  pose proof (digits2_le _ _ Hle) as Hd'.
  rewrite (binary_round_int false n (p - 2) 51 (-52)); try lia.
  apply lt_pos_finite.
  destruct (Z.eq_dec (Zpos (digits2_pos (p - 2))) (Zpos (digits2_pos p))) as [E|E].
  - right. split; [lia|]. rewrite !mant53_Z by lia. rewrite E.
    apply Z.mul_lt_mono_pos_r; [apply Z.pow_pos_nonneg; lia | lia].
  - left. lia.
Qed.

(** Adding one to an integer count below 2^53 is exact. *)
Lemma add_one n :
  0 <= n < 2 ^ 53 -> add (of_Z n) (of_Z 1) = of_Z (n + 1).
Proof.
  intros [H0 H1].
  destruct n as [|p|p]; [vm_compute; reflexivity | | lia].
  destruct (Z.eq_dec (Zpos p) (2 ^ 53 - 1)) as [E|E].
  { injection E as ->. vm_compute. reflexivity. }
  pose proof (digits2_bound p 53 ltac:(lia) H1) as Hd.
  assert (Hd1 : Zpos (digits2_pos (p + 1)) <= 53)
    by (apply digits2_bound; lia).
  replace (Zpos p + 1) with (Zpos (p + 1)) by lia.
  rewrite one_bits, !of_Z_pos by assumption.
  unfold add, SFadd, prec, emax.
  rewrite Z.min_r by lia. cbn [cond_Zopp].
  set (a := fst (shl_align (mant53 p) (Zpos (digits2_pos p) - 53) (-52))).
  assert (Ha : Zpos a = Zpos p * 2 ^ 52).
  { unfold a. rewrite shl_align_fst_Z, mant53_Z by lia.
    rewrite <- Z.mul_assoc, <- Z.pow_add_r by lia. f_equal. f_equal. lia. }
  replace (fst (shl_align 4503599627370496 (-52) (-52)))
    with 4503599627370496%positive by reflexivity.
  assert (Hq : Zpos a + 4503599627370496 = Zpos (p + 1) * 2 ^ 52).
  { rewrite Ha, Pos2Z.inj_add.
    change 4503599627370496 with (1 * 2 ^ 52) at 1. ring. }
  destruct (Zpos a + 4503599627370496) as [|n|n] eqn:En; try lia.
  unfold binary_normalize.
  rewrite (binary_round_int false n (p + 1) 52 (-52)); try lia.
  f_equal; lia.
Qed.

End Binary64.

(** ** The trigger predicate *)

Section TriggerPredicate.

Variable h : number.

Lemma callback_true_iff d :
  snd (distracted_callback h d) = true <-> triggering h d.
Proof.
  unfold distracted_callback, triggering, watched, bbox_y.
  destruct (bbox d) as [[[x y] wd] ht]. cbn [snd].
  rewrite !andb_true_iff, orb_true_iff, !String.eqb_eq. tauto.
Qed.

Lemma distracted_existsb D :
  distracted h D = existsb (fun d => snd (distracted_callback h d)) D.
Proof.
  unfold distracted, distracted_run.
  induction D as [|d D IH]; [reflexivity|].
  cbn [some existsb].
  destruct (distracted_callback h d) as [log b]. cbn [snd].
  destruct b; [reflexivity|].
  destruct (some (distracted_callback h) D) as [log' b']. exact IH.
Qed.

Lemma distracted_true_iff D :
  distracted h D = true <-> exists d, In d D /\ triggering h d.
Proof.
  rewrite distracted_existsb, existsb_exists.
  split; intros [d [Hin Hd]]; exists d; split; auto;
    now apply callback_true_iff.
Qed.

Lemma distracted_singleton d :
  distracted h [d] = snd (distracted_callback h d).
Proof. rewrite distracted_existsb. cbn [existsb]. apply orb_false_r. Qed.

(** The log holds [console.log] lines only. *)
Lemma distracted_run_log (f : event -> bool) D :
  (forall cls sc y up, f (ConsoleLog cls sc y up) = false) ->
  filter f (fst (distracted_run h D)) = [].
Proof.
  intros Hf. unfold distracted_run.
  induction D as [|d D IH]; [reflexivity|].
  cbn [some].
  assert (Hd : filter f (fst (distracted_callback h d)) = []).
  { unfold distracted_callback. destruct (bbox d) as [[[x y] wd] ht].
    cbn [fst]. destruct (_ && _); cbn [filter]; [rewrite Hf|]; reflexivity. }
  destruct (distracted_callback h d) as [log b]. cbn [fst] in Hd.
  destruct b; [exact Hd|].
  destruct (some (distracted_callback h) D) as [log' b'].
  cbn [fst] in *. now rewrite filter_app, Hd, IH.
Qed.

End TriggerPredicate.

(** C1. For every detection set [D] and frame height [h] the trigger
    predicate answers true exactly when some detection of [D] has the class
    "cell phone" or "remote", a score strictly above 0.65 and a top edge [y]
    strictly below [h * 0.5]; the order of the detections does not matter. *)
Theorem trigger_iff_some_detection_matches :
  forall (D : list prediction) (h : number),
    (distracted h D = true <->
     exists d, In d D
       /\ (class d = "cell phone" \/ class d = "remote")
       /\ gt (score d) CONFIDENCE_THRESHOLD = true
       /\ lt (bbox_y d) (mul h UPPER_HALF_THRESHOLD) = true)
    /\ (forall D', Permutation D D' -> distracted h D' = distracted h D).
Proof.
  intros D h. split.
  - apply distracted_true_iff.
  - intros D' HP.
    apply eq_true_iff_eq. rewrite !distracted_true_iff.
    split; intros [d [Hin Hd]]; exists d; split; auto.
    + eapply Permutation_in; [apply Permutation_sym|]; eassumption.
    + eapply Permutation_in; eassumption.
Qed.

(** The scenarios of the specification, on a frame 480 pixels high. *)
Example scenario_phone_upper_half :
  distracted (frame_height 480) [sample_phone] = true.
Proof. vm_compute. reflexivity. Qed.

Example scenario_book :
  distracted (frame_height 480)
    [sample_detection "book" (literal 9 1) (of_Z 50)] = false.
Proof. vm_compute. reflexivity. Qed.

Example scenario_low_score :
  distracted (frame_height 480)
    [sample_detection "cell phone" (literal 5 1) (of_Z 50)] = false.
Proof. vm_compute. reflexivity. Qed.

Example scenario_lower_half :
  distracted (frame_height 480)
    [sample_detection "cell phone" (literal 9 1) (of_Z 300)] = false.
Proof. vm_compute. reflexivity. Qed.

Lemma trigger_iff_some_detection_matches_witness :
  distracted (frame_height 480)
    [sample_phone; sample_detection "book" (literal 9 1) (of_Z 50)]
  = distracted (frame_height 480)
    [sample_detection "book" (literal 9 1) (of_Z 50); sample_phone].
Proof.
  apply (proj2 (trigger_iff_some_detection_matches
                  [sample_detection "book" (literal 9 1) (of_Z 50); sample_phone]
                  (frame_height 480))).
  apply perm_swap.
Defined.

Lemma watched_eqb cls :
  watched cls -> ((cls =? "cell phone")%string || (cls =? "remote")%string) = true.
Proof.
  intros [->| ->]; reflexivity.
Qed.

(** C5. For a detection of a watched class whose top edge is in the upper
    half, a score of exactly 0.65 does not trigger and a score of 0.6501
    does: the confidence gate is a strict greater-than. *)
Theorem confidence_gate_is_strict :
  forall (d : prediction) (h : number),
    watched (class d) ->
    lt (bbox_y d) (mul h UPPER_HALF_THRESHOLD) = true ->
    (score d = literal 65 2 -> distracted h [d] = false)
    /\ (score d = literal 6501 4 -> distracted h [d] = true).
Proof.
  intros d h Hc Hy.
  rewrite distracted_singleton.
  unfold distracted_callback, bbox_y in *.
  destruct (bbox d) as [[[x y] wd] ht]. cbn [snd].
  rewrite (watched_eqb _ Hc), Hy.
  split; intros ->; vm_compute; reflexivity.
Qed.

Lemma confidence_gate_is_strict_witness :
  distracted (frame_height 480)
    [sample_detection "cell phone" (literal 65 2) (of_Z 50)] = false
  /\ distracted (frame_height 480)
    [sample_detection "remote" (literal 6501 4) (of_Z 50)] = true.
Proof.
  split.
  - apply (proj1 (confidence_gate_is_strict
                    (sample_detection "cell phone" (literal 65 2) (of_Z 50))
                    (frame_height 480)
                    (or_introl eq_refl) eq_refl)).
    reflexivity.
  - apply (proj2 (confidence_gate_is_strict
                    (sample_detection "remote" (literal 6501 4) (of_Z 50))
                    (frame_height 480)
                    (or_intror eq_refl) eq_refl)).
    reflexivity.
Defined.

(** C6. For a detection of a watched class with a score above the threshold,
    a top edge [y] exactly equal to [frameHeight * 0.5] does not trigger,
    whatever the frame height, and for every integer frame height below 2^53
    (every value an unsigned long [videoHeight] can take) a top edge one
    pixel less does: the spatial gate is a strict less-than. *)
Theorem spatial_gate_is_strict :
  forall (d : prediction),
    watched (class d) ->
    gt (score d) CONFIDENCE_THRESHOLD = true ->
    (forall H : number,
        bbox_y d = mul H UPPER_HALF_THRESHOLD -> distracted H [d] = false)
    /\ (forall h : N,
          (h < 2 ^ 53)%N ->
          bbox_y d = sub (mul (frame_height h) UPPER_HALF_THRESHOLD) (of_Z 1) ->
          distracted (frame_height h) [d] = true).
Proof.
  intros d Hc Hs. split.
  - intros H Hy. rewrite distracted_singleton.
    unfold distracted_callback, bbox_y in *.
    destruct (bbox d) as [[[x y] wd] ht]. cbn [snd].
    rewrite Hy, lt_irrefl. apply andb_false_r.
  - intros h Hh Hy. rewrite distracted_singleton.
    unfold distracted_callback, bbox_y in *.
    destruct (bbox d) as [[[x y] wd] ht]. cbn [snd].
    rewrite (watched_eqb _ Hc). unfold gt in Hs. unfold gt. rewrite Hs, Hy.
    unfold frame_height. rewrite one_below_half; [reflexivity|].
    split; [lia|]. change (2 ^ 53) with (Z.of_N (2 ^ 53)). lia.
Qed.

Lemma spatial_gate_is_strict_witness :
  distracted (frame_height 480)
    [sample_detection "cell phone" (literal 9 1) (of_Z 240)] = false
  /\ distracted (frame_height 480)
    [sample_detection "cell phone" (literal 9 1) (of_Z 239)] = true.
Proof.
  split.
  - apply (proj1 (spatial_gate_is_strict
                    (sample_detection "cell phone" (literal 9 1) (of_Z 240))
                    (or_introl eq_refl) eq_refl) (frame_height 480)).
    vm_compute. reflexivity.
  - apply (proj2 (spatial_gate_is_strict
                    (sample_detection "cell phone" (literal 9 1) (of_Z 239))
                    (or_introl eq_refl) eq_refl) 480%N).
    + reflexivity.
    + vm_compute. reflexivity.
Defined.

Lemma callback_agrees h d1 d2 :
  same_class_score_y d1 d2 ->
  distracted_callback h d1 = distracted_callback h d2.
Proof.
  unfold same_class_score_y, bbox_y, distracted_callback.
  destruct (bbox d1) as [[[x1 y1] w1] h1], (bbox d2) as [[[x2 y2] w2] h2].
  intros (-> & -> & ->). reflexivity.
Qed.

Lemma distracted_run_agrees h D1 D2 :
  Forall2 same_class_score_y D1 D2 ->
  distracted_run h D1 = distracted_run h D2.
Proof.
  unfold distracted_run.
  induction 1 as [|d1 d2 D1 D2 Hd _ IH]; [reflexivity|].
  cbn [some]. now rewrite (callback_agrees h d1 d2 Hd), IH.
Qed.

(** C9. The trigger predicate reads only the class label, the score and the
    top edge [y] of each detection, with the frame height: two detection sets
    that agree on these and differ in the boxes' x, width or height get the
    same answer. *)
Theorem predicate_ignores_x_width_height :
  forall (h : number) (D1 D2 : list prediction),
    Forall2 same_class_score_y D1 D2 ->
    distracted h D1 = distracted h D2.
Proof.
  intros h D1 D2 HD. unfold distracted.
  now rewrite (distracted_run_agrees h D1 D2 HD).
Qed.

Lemma predicate_ignores_x_width_height_witness :
  distracted (frame_height 480) [sample_phone]
  = distracted (frame_height 480)
      [{| bbox := (of_Z 600, of_Z 50, of_Z 3, of_Z 400);
          class := "cell phone"; score := literal 9 1 |}].
Proof.
  apply (predicate_ignores_x_width_height (frame_height 480)).
  constructor; [|constructor].
  split; [|split]; reflexivity.
Defined.

(** ** The App shell's [navigate] *)

Lemma or_else_absent_or_empty fallback :
  or_else None fallback = fallback /\ or_else (Some "") fallback = fallback.
Proof. split; reflexivity. Qed.

Lemma or_else_given s fallback :
  s <> "" -> or_else (Some s) fallback = s.
Proof.
  intros Hs. unfold or_else.
  destruct (String.eqb_spec s ""); [contradiction | reflexivity].
Qed.

Lemma navigate_alert_count st data :
  distractionCount (navigate SCREENS.ALERT data st)
  = add (distractionCount st) (of_Z 1).
Proof. reflexivity. Qed.

(** The count after [k] alerts is the integer [k], as long as [k] is at most
    2^53: the counter stays in the range where adding one is exact. *)
Lemma count_after_alerts (k : nat) (data : option payload) :
  Z.of_nat k <= 2 ^ 53 ->
  distractionCount (Nat.iter k (navigate SCREENS.ALERT data) App_initial)
  = of_Z (Z.of_nat k).
Proof.
  induction k as [|k IH]; intros Hk; [reflexivity|].
  rewrite Nat.iter_succ, navigate_alert_count, IH by lia.
  rewrite add_one by lia. f_equal. lia.
Qed.

(** C10. A [navigate] call with the alert screen adds exactly one to the
    distraction count (an integer count below 2^53, where the number type
    counts exactly) and sets the insult to the payload's [insult], or to
    "You were caught!" when that field is absent or empty; a call with any
    other screen leaves the count and the insult as they were. *)
Theorem navigate_alert_counts_once :
  forall (st : app_state) (screen : string) (data : option payload),
    (screen = SCREENS.ALERT ->
       (forall n, 0 <= n < 2 ^ 53 -> distractionCount st = of_Z n ->
          distractionCount (navigate screen data st) = of_Z (n + 1))
       /\ (forall s, data = Some {| insult_field := Some s |} -> s <> "" ->
             insult (navigate screen data st) = s)
       /\ (data = None \/ data = Some {| insult_field := None |}
           \/ data = Some {| insult_field := Some "" |} ->
             insult (navigate screen data st) = "You were caught!"))
    /\ (screen <> SCREENS.ALERT ->
          distractionCount (navigate screen data st) = distractionCount st
          /\ insult (navigate screen data st) = insult st).
Proof.
  intros st screen data. split.
  - intros ->. unfold navigate.
    change ((SCREENS.ALERT =? SCREENS.ALERT)%string) with true.
    cbn [distractionCount insult]. repeat split.
    + intros n Hn ->. now apply add_one.
    + intros s -> Hs. cbn [insult_field]. now apply or_else_given.
    + intros [-> | [-> | ->]]; reflexivity.
  - intros Hs. unfold navigate.
    destruct (String.eqb_spec screen SCREENS.ALERT); [contradiction|].
    split; reflexivity.
Qed.

Lemma navigate_alert_counts_once_witness :
  distractionCount
    (navigate SCREENS.ALERT (Some {| insult_field := Some mockInsult |}) App_initial)
  = of_Z 1
  /\ insult
       (navigate SCREENS.ALERT (Some {| insult_field := Some mockInsult |}) App_initial)
     = mockInsult
  /\ insult (navigate SCREENS.ALERT None App_initial) = "You were caught!"
  /\ distractionCount (navigate SCREENS.STATS None App_initial) = of_Z 0.
Proof.
  pose proof (navigate_alert_counts_once App_initial SCREENS.ALERT
                (Some {| insult_field := Some mockInsult |})) as [Ha _].
  pose proof (navigate_alert_counts_once App_initial SCREENS.ALERT None) as [Hb _].
  pose proof (navigate_alert_counts_once App_initial SCREENS.STATS None) as [_ Hc].
  destruct (Ha eq_refl) as (Hcount & Hgiven & _).
  destruct (Hb eq_refl) as (_ & _ & Hfallback).
  split; [|split; [|split]].
  - apply (Hcount 0); [lia | reflexivity].
  - apply Hgiven; [reflexivity | discriminate].
  - apply Hfallback. left. reflexivity.
  - apply Hc. discriminate.
Defined.

(** ** The component as a state machine *)

Section Frames.

Variable f : event -> bool.

Lemma count_emit es w :
  count f (emit es w) = (count f w + List.length (filter f es))%nat.
Proof. unfold count. cbn [trace emit]. now rewrite filter_app, length_app. Qed.

Lemma count_setTimeout c d w :
  count f (snd (setTimeout c d w))
  = (count f w + if f (SetTimeout (next_id w) d) then 1 else 0)%nat.
Proof.
  unfold setTimeout. cbn [snd]. rewrite count_emit. cbn [filter].
  destruct (f _); reflexivity.
Qed.

Lemma count_loop_cleanup w :
  (forall id, f (ClearTimeout id) = false) ->
  count f (loop_cleanup w) = count f w.
Proof.
  intros Hf. unfold loop_cleanup.
  destruct (timerId w) as [id|]; [|reflexivity].
  destruct (id =? 0)%N; [reflexivity|].
  unfold clearTimeout. rewrite count_emit. cbn [filter]. rewrite Hf.
  cbn [List.length]. unfold count. cbn [trace set_timers]. lia.
Qed.

Lemma count_call_navigate screen data w :
  (forall id, f (ClearTimeout id) = false) ->
  count f (call_navigate screen data w)
  = (count f w + if f (NavigateCall screen data) then 1 else 0)%nat.
Proof.
  intros Hf. unfold call_navigate.
  assert (E : count f (set_app (navigate screen data (app w))
                         (emit [NavigateCall screen data] w))
              = (count f w + if f (NavigateCall screen data) then 1 else 0)%nat).
  { unfold count. cbn [trace set_app emit]. rewrite filter_app, length_app.
    cbn [filter]. destruct (f _); reflexivity. }
  destruct (_ && _); [|exact E].
  unfold unmount.
  change (count f (set_mounted false ?x)) with (count f x).
  now rewrite count_loop_cleanup.
Qed.

End Frames.

Lemma filter_length_le {A} (g : A -> bool) l :
  (List.length (filter g l) <= List.length l)%nat.
Proof.
  induction l as [|a l IH]; cbn [filter List.length]; [lia|].
  destruct (g a); cbn [List.length]; lia.
Qed.

(** The cleanup touches nothing but the timers, and only removes from them. *)
Lemma loop_cleanup_frame w :
  app (loop_cleanup w) = app w /\ mounted (loop_cleanup w) = mounted w
  /\ model (loop_cleanup w) = model w /\ status (loop_cleanup w) = status w
  /\ phase (loop_cleanup w) = phase w /\ inflight (loop_cleanup w) = inflight w
  /\ ticks (loop_cleanup w) = ticks w
  /\ (List.length (timers (loop_cleanup w)) <= List.length (timers w))%nat.
Proof.
  unfold loop_cleanup.
  destruct (timerId w) as [id|]; [|repeat split; lia].
  destruct (id =? 0)%N; [repeat split; lia|].
  unfold clearTimeout. cbn. repeat split. apply filter_length_le.
Qed.

(** A [navigate] call does not touch the component's cells, the running
    ticks or the tick count, and can only remove timers. *)
Lemma call_navigate_frame screen data w :
  model (call_navigate screen data w) = model w
  /\ status (call_navigate screen data w) = status w
  /\ phase (call_navigate screen data w) = phase w
  /\ inflight (call_navigate screen data w) = inflight w
  /\ ticks (call_navigate screen data w) = ticks w
  /\ (List.length (timers (call_navigate screen data w)) <= List.length (timers w))%nat
  /\ (mounted w = false -> mounted (call_navigate screen data w) = false).
Proof.
  unfold call_navigate.
  set (w1 := set_app _ _).
  destruct (mounted w1 && negb (renders_WorkScreen screen)) eqn:E.
  - unfold unmount. cbn [model status phase inflight ticks timers mounted set_mounted].
    destruct (loop_cleanup_frame w1) as (_ & _ & Hm & Hs & Hp & Hi & Ht & Hl).
    rewrite Hm, Hs, Hp, Hi, Ht. repeat split; try reflexivity. exact Hl.
  - assert (Hm : mounted w1 = mounted w) by reflexivity.
    assert (Ht : timers w1 = timers w) by reflexivity.
    rewrite Ht. repeat split; try reflexivity; try lia.
    intros H. now rewrite Hm.
Qed.

Lemma scheduled_call_navigate screen data w :
  (scheduled (call_navigate screen data w) <= scheduled w)%nat.
Proof.
  unfold scheduled.
  destruct (call_navigate_frame screen data w) as (_ & _ & _ & Hi & _ & Hl & _).
  rewrite Hi. lia.
Qed.

Ltac frame :=
  cbn [app mounted model status phase timerId timers next_id inflight ticks
       trace emit set_app set_mounted setModel setStatus set_phase
       set_timerId set_timers set_next_id set_inflight count_tick] in *.

Lemma scheduled_zero w :
  scheduled w = 0%nat -> timers w = [] /\ inflight w = [].
Proof.
  unfold scheduled. destruct (timers w), (inflight w); cbn [List.length]; intros; try lia.
  split; reflexivity.
Qed.

(** Once halted, a world only records the user's clicks. *)
Lemma halted_step w i :
  halted w ->
  halted (step w i)
  /\ ticks (step w i) = ticks w
  /\ model (step w i) = model w
  /\ status (step w i) = status w
  /\ (forall f, (forall id, f (ClearTimeout id) = false) ->
                (forall s, f (NavigateCall s None) = false) ->
                count f (step w i) = count f w).
Proof.
  intros [Hp Hs]. destruct (scheduled_zero w Hs) as [Ht Hi].
  assert (Hw : halted w) by (split; assumption).
  destruct i as [ok|loaded|v|result| |]; cbn [step];
    rewrite ?Hp, ?Ht, ?Hi; try (repeat split; auto; fail).
  - destruct (call_navigate_frame SCREENS.STATS None w) as (Hm & Hst & Hph & Hin & Htk & Hl & _).
    repeat split; try congruence.
    + unfold scheduled in *. rewrite Hin. lia.
    + intros f Hc Hn. rewrite count_call_navigate, Hn by assumption. lia.
  - destruct (call_navigate_frame SCREENS.WORK None w) as (Hm & Hst & Hph & Hin & Htk & Hl & _).
    repeat split; try congruence.
    + unfold scheduled in *. rewrite Hin. lia.
    + intros f Hc Hn. rewrite count_call_navigate, Hn by assumption. lia.
Qed.

Lemma halted_run script : forall w,
  halted w ->
  halted (run w script)
  /\ ticks (run w script) = ticks w
  /\ model (run w script) = model w
  /\ status (run w script) = status w
  /\ (forall f, (forall id, f (ClearTimeout id) = false) ->
                (forall s, f (NavigateCall s None) = false) ->
                count f (run w script) = count f w).
Proof.
  induction script as [|i script IH]; intros w Hw; cbn [run fold_left].
  - repeat split; auto; apply Hw.
  - destruct (halted_step w i Hw) as (H1 & H2 & H3 & H4 & H5).
    destruct (IH (step w i) H1) as (K1 & K2 & K3 & K4 & K5).
    fold (run (step w i) script).
    repeat split; try congruence; try apply K1.
    intros f Hc Hn. rewrite K5, H5 by assumption. reflexivity.
Qed.

Lemma scheduled_setTimeout c d w :
  scheduled (snd (setTimeout c d w)) = S (scheduled w).
Proof.
  unfold scheduled, setTimeout. frame. cbn [snd]. frame.
  rewrite length_app. cbn [List.length]. lia.
Qed.

Lemma single_chain_initial : single_chain initial.
Proof.
  unfold single_chain, scheduled, count. cbn. repeat split; auto; lia.
Qed.

Lemma phase_dec (p : load_phase) : {p = LoadFinished} + {p <> LoadFinished}.
Proof. destruct p; [right|right|left]; congruence. Qed.

Lemma scheduled_one_timer w t rest :
  (scheduled w <= 1)%nat -> timers w = t :: rest -> rest = [] /\ inflight w = [].
Proof.
  unfold scheduled. intros H E. rewrite E in H.
  destruct rest, (inflight w); cbn [List.length] in H; try lia. split; reflexivity.
Qed.

Lemma scheduled_one_inflight w t rest :
  (scheduled w <= 1)%nat -> inflight w = t :: rest -> rest = [] /\ timers w = [].
Proof.
  unfold scheduled. intros H E. rewrite E in H.
  destruct rest, (timers w); cbn [List.length] in H; try lia. split; reflexivity.
Qed.

Lemma is_trigger_log h D : filter is_trigger (fst (distracted_run h D)) = [].
Proof. now apply distracted_run_log. Qed.

Lemma single_chain_step w i : single_chain w -> single_chain (step w i).
Proof.
  intros Hw. pose proof Hw as (H1 & H2 & H3).
  destruct i as [ok|loaded|v|result| |]; cbn [step].
  - (* tf.ready() settles *)
    destruct (phase w) eqn:Hp; try exact Hw.
    destruct H2 as (Hs & Htk & Hm & Ht & Hd & Hsc); [congruence|].
    destruct ok.
    + unfold single_chain, scheduled, count in *. frame.
      rewrite !filter_app, !length_app. cbn [filter is_trigger is_detect is_schedule List.length].
      repeat split; auto; try lia.
    + unfold loadModel_catch. frame.
      destruct (mounted w); unfold single_chain, scheduled, count in *; frame;
        rewrite !filter_app, !length_app;
        cbn [filter is_trigger is_detect is_schedule List.length];
        (split; [lia|split; [congruence|left; lia]]).
  - (* cocoSsd.load() settles *)
    destruct (phase w) eqn:Hp; try exact Hw.
    destruct H2 as (Hs & Htk & Hm & Ht & Hd & Hsc); [congruence|].
    destruct (scheduled_zero w Hs) as [Etm Einf].
    destruct loaded as [m|].
    + unfold loadModel_done. frame.
      destruct (mounted w).
      * set (w2 := loop_cleanup _).
        destruct (loop_cleanup_frame
                    (setStatus "AI Ready. Get to work!"
                       (setModel (Some m) (set_phase LoadFinished w))))
          as (_ & _ & Em & _ & Ep & Ei & _ & El).
        fold w2 in Em, Ep, Ei, El. frame.
        assert (Ec : count is_trigger w2 = 0%nat).
        { unfold w2. rewrite count_loop_cleanup by reflexivity. exact Ht. }
        unfold loop_effect. rewrite Em.
        change (let (id, w') := setTimeout (Some m) DETECTION_INTERVAL_MS w2 in
                set_timerId (Some id) w')
          with (set_timerId (Some (next_id w2))
                  (snd (setTimeout (Some m) DETECTION_INTERVAL_MS w2))).
        assert (Es : scheduled (set_timerId (Some (next_id w2))
                  (snd (setTimeout (Some m) DETECTION_INTERVAL_MS w2))) = 1%nat).
        { change (scheduled (set_timerId ?a ?b)) with (scheduled b).
          rewrite scheduled_setTimeout. unfold scheduled. rewrite Ei, Einf.
          rewrite Etm in El. cbn [List.length] in *. lia. }
        split; [lia|]. split.
        { intros Hne. exfalso. apply Hne. cbn. exact Ep. }
        left. change (count is_trigger (set_timerId ?a ?b)) with (count is_trigger b).
        rewrite count_setTimeout. cbn [is_trigger]. lia.
      * unfold single_chain, scheduled, count in *. frame.
        split; [lia|split; [congruence|left; lia]].
    + unfold loadModel_catch. frame.
      destruct (mounted w); unfold single_chain, scheduled, count in *; frame;
        rewrite !filter_app, !length_app;
        cbn [filter is_trigger is_detect is_schedule List.length];
        (split; [lia|split; [congruence|left; lia]]).
  - (* a timeout comes due *)
    destruct (timers w) as [|[id c] rest] eqn:Et; [exact Hw|].
    destruct (scheduled_one_timer w _ _ H1 Et) as [-> Ei].
    assert (Hp : phase w = LoadFinished).
    { destruct (phase_dec (phase w)) as [|N]; [assumption|].
      destruct (H2 N) as (Hs & _). unfold scheduled in Hs. rewrite Et in Hs.
      cbn [List.length] in Hs. lia. }
    assert (Ht : count is_trigger w = 0%nat).
    { destruct H3 as [|[_ Hs]]; [assumption|]. unfold scheduled in Hs.
      rewrite Et in Hs. cbn [List.length] in Hs. lia. }
    unfold runDetection_call.
    destruct (guard c _) as [[m v']|].
    + unfold single_chain, scheduled, count in *. frame. rewrite Ei.
      rewrite !filter_app, !length_app.
      cbn [filter is_trigger is_detect is_schedule List.length app].
      split; [lia|split; [congruence|left; lia]].
    + split; [|split].
      * rewrite scheduled_setTimeout. unfold scheduled. frame. rewrite Ei.
        cbn [List.length]. lia.
      * intros N. exfalso. apply N. exact Hp.
      * left. rewrite count_setTimeout. cbn [is_trigger].
        unfold count in *. frame. lia.
  - (* model.detect() settles *)
    destruct (inflight w) as [|[c h] rest] eqn:Ei; [exact Hw|].
    destruct (scheduled_one_inflight w _ _ H1 Ei) as [-> Et].
    assert (Hp : phase w = LoadFinished).
    { destruct (phase_dec (phase w)) as [|N]; [assumption|].
      destruct (H2 N) as (Hs & _). unfold scheduled in Hs. rewrite Ei in Hs.
      rewrite Nat.add_comm in Hs. cbn [List.length] in Hs. lia. }
    assert (Ht : count is_trigger w = 0%nat).
    { destruct H3 as [|[_ Hs]]; [assumption|]. unfold scheduled in Hs.
      rewrite Ei in Hs. rewrite Nat.add_comm in Hs. cbn [List.length] in Hs. lia. }
    unfold runDetection_resume.
    destruct result as [predictions|].
    + pose proof (is_trigger_log (frame_height h) predictions) as Hlog.
      destruct (distracted_run (frame_height h) predictions) as [log d].
      cbn [fst] in Hlog.
      set (w1 := emit log (set_inflight [] w)).
      assert (Hs1 : scheduled w1 = 0%nat)
        by (unfold scheduled, w1; frame; rewrite Et; reflexivity).
      assert (Ht1 : count is_trigger w1 = 0%nat).
      { unfold w1. rewrite count_emit, Hlog. unfold count in *. frame.
        cbn [List.length]. lia. }
      assert (Hp1 : phase w1 = LoadFinished) by exact Hp.
      destruct d.
      * pose proof (scheduled_call_navigate SCREENS.ALERT
                      (Some {| insult_field := Some mockInsult |}) w1) as Hle.
        destruct (call_navigate_frame SCREENS.ALERT
                      (Some {| insult_field := Some mockInsult |}) w1)
          as (_ & _ & Hph & _).
        split; [lia|split].
        { intros N. exfalso. apply N. congruence. }
        right. rewrite count_call_navigate by reflexivity.
        cbn [is_trigger]. change ((SCREENS.ALERT =? SCREENS.ALERT)%string) with true.
        split; lia.
      * split; [|split].
        { rewrite scheduled_setTimeout. lia. }
        { intros N. exfalso. apply N. exact Hp. }
        left. rewrite count_setTimeout. cbn [is_trigger]. lia.
    + unfold single_chain, scheduled, count in *. frame. rewrite Et.
      rewrite !filter_app, !length_app.
      cbn [filter is_trigger is_detect is_schedule List.length].
      split; [lia|split; [congruence|left; lia]].
  - (* navigate(SCREENS.STATS) *)
    pose proof (scheduled_call_navigate SCREENS.STATS None w) as Hle.
    destruct (call_navigate_frame SCREENS.STATS None w)
      as (Hm & _ & Hph & _ & Htk & _).
    assert (Hc : forall f, (forall id, f (ClearTimeout id) = false) ->
                 (forall s, f (NavigateCall s None) = false) ->
                 count f (call_navigate SCREENS.STATS None w) = count f w).
    { intros f Hf Hn. rewrite count_call_navigate, Hn by assumption. lia. }
    split; [lia|split].
    + rewrite Hph, Hm, Htk, !Hc by reflexivity. intros N.
      destruct (H2 N) as (? & ? & ? & ? & ? & ?). repeat split; auto; lia.
    + rewrite Hc by reflexivity. destruct H3 as [|[? ?]]; [left|right]; auto.
      split; auto; lia.
  - (* navigate(SCREENS.WORK) *)
    pose proof (scheduled_call_navigate SCREENS.WORK None w) as Hle.
    destruct (call_navigate_frame SCREENS.WORK None w)
      as (Hm & _ & Hph & _ & Htk & _).
    assert (Hc : forall f, (forall id, f (ClearTimeout id) = false) ->
                 (forall s, f (NavigateCall s None) = false) ->
                 count f (call_navigate SCREENS.WORK None w) = count f w).
    { intros f Hf Hn. rewrite count_call_navigate, Hn by assumption. lia. }
    split; [lia|split].
    + rewrite Hph, Hm, Htk, !Hc by reflexivity. intros N.
      destruct (H2 N) as (? & ? & ? & ? & ? & ?). repeat split; auto; lia.
    + rewrite Hc by reflexivity. destruct H3 as [|[? ?]]; [left|right]; auto.
      split; auto; lia.
Qed.

Lemma single_chain_run script : forall w,
  single_chain w -> single_chain (run w script).
Proof.
  induction script as [|i script IH]; intros w Hw; [exact Hw|].
  apply IH, single_chain_step, Hw.
Qed.

Lemma reachable_single_chain script : single_chain (run initial script).
Proof. apply single_chain_run, single_chain_initial. Qed.


Lemma run_app w s1 s2 : run w (s1 ++ s2) = run (run w s1) s2.
Proof. apply fold_left_app. Qed.

(** C3. In every run, once the detections handed to a tick satisfy the
    trigger predicate, that tick calls [navigate] once with the alert screen
    and a message, this is the only trigger of the whole run, nothing is
    scheduled any more, and whatever happens next no further tick runs, no
    timeout is set and no second trigger is emitted. *)
Theorem trigger_is_emitted_once_and_ends_the_loop :
  forall (before after : list input) (predictions : list prediction)
         (captured : option model_handle) (h : N)
         (rest : list (option model_handle * N)),
    let w := run initial before in
    inflight w = (captured, h) :: rest ->
    distracted (frame_height h) predictions = true ->
    let w' := step w (DetectSettles (Some predictions)) in
    count is_trigger w = 0%nat
    /\ count is_trigger w' = 1%nat
    /\ In (NavigateCall SCREENS.ALERT (Some {| insult_field := Some mockInsult |}))
          (trace w')
    /\ count is_schedule w' = count is_schedule w
    /\ scheduled w' = 0%nat
    /\ ticks (run w' after) = ticks w
    /\ count is_trigger (run w' after) = 1%nat
    /\ count is_schedule (run w' after) = count is_schedule w
    /\ count is_detect (run w' after) = count is_detect w.
Proof.
  intros before after predictions captured h rest w Hi Hd w'.
  pose proof (reachable_single_chain before) as Hw. fold w in Hw.
  pose proof (single_chain_step w (DetectSettles (Some predictions)) Hw) as Hw'.
  fold w' in Hw'.
  destruct Hw as (H1 & H2 & H3).
  destruct (scheduled_one_inflight w _ _ H1 Hi) as [-> Et].
  assert (Hp : phase w = LoadFinished).
  { destruct (phase_dec (phase w)) as [|N]; [assumption|].
    destruct (H2 N) as (Hs & _). unfold scheduled in Hs. rewrite Hi, Et in Hs.
    cbn [List.length] in Hs. lia. }
  assert (Ht : count is_trigger w = 0%nat).
  { destruct H3 as [|[_ Hs]]; [assumption|]. unfold scheduled in Hs.
    rewrite Hi, Et in Hs. cbn [List.length] in Hs. lia. }
  (* what the tick does *)
  assert (Ew' : w' = call_navigate SCREENS.ALERT
                       (Some {| insult_field := Some mockInsult |})
                       (emit (fst (distracted_run (frame_height h) predictions))
                             (set_inflight [] w))).
  { unfold w'. cbn [step]. rewrite Hi. unfold runDetection_resume.
    unfold distracted in Hd.
    destruct (distracted_run (frame_height h) predictions) as [log d].
    cbn [snd] in Hd. subst d. reflexivity. }
  set (w1 := emit _ _) in Ew'.
  assert (Hcount : forall f,
             (forall cls sc y up, f (ConsoleLog cls sc y up) = false) ->
             (forall id, f (ClearTimeout id) = false) ->
             count f w' = (count f w + if f (NavigateCall SCREENS.ALERT
                              (Some {| insult_field := Some mockInsult |}))
                                       then 1 else 0)%nat).
  { intros f Hl Hc. rewrite Ew', count_call_navigate by assumption.
    unfold w1. rewrite count_emit, distracted_run_log by assumption.
    unfold count. frame. cbn [List.length]. lia. }
  assert (Hs' : scheduled w' = 0%nat).
  { pose proof (scheduled_call_navigate SCREENS.ALERT
                  (Some {| insult_field := Some mockInsult |}) w1) as Hle.
    rewrite <- Ew' in Hle.
    assert (scheduled w1 = 0%nat)
      by (unfold scheduled, w1; frame; rewrite Et; reflexivity).
    lia. }
  assert (Hp' : phase w' = LoadFinished).
  { rewrite Ew'.
    destruct (call_navigate_frame SCREENS.ALERT
                (Some {| insult_field := Some mockInsult |}) w1)
      as (_ & _ & Hph & _). rewrite Hph. exact Hp. }
  assert (Htk' : ticks w' = ticks w).
  { rewrite Ew'.
    destruct (call_navigate_frame SCREENS.ALERT
                (Some {| insult_field := Some mockInsult |}) w1)
      as (_ & _ & _ & _ & Htk & _). rewrite Htk. reflexivity. }
  destruct (halted_run after w' (conj Hp' Hs')) as (_ & Ktk & _ & _ & Kc).
  assert (T1 : count is_trigger w' = 1%nat).
  { rewrite Hcount, Ht by reflexivity. reflexivity. }
  assert (S1 : count is_schedule w' = count is_schedule w).
  { rewrite Hcount by reflexivity. cbn [is_schedule]. lia. }
  assert (D1 : count is_detect w' = count is_detect w).
  { rewrite Hcount by reflexivity. cbn [is_detect]. lia. }
  repeat split; try assumption.
  - rewrite Ew'. unfold call_navigate.
    set (w2 := set_app _ _).
    assert (Hin : In (NavigateCall SCREENS.ALERT
                        (Some {| insult_field := Some mockInsult |})) (trace w2)).
    { unfold w2. frame. apply in_or_app. right. left. reflexivity. }
    destruct (_ && _); [|exact Hin].
    unfold unmount, loop_cleanup. frame.
    destruct (timerId w2) as [id|]; [|exact Hin].
    destruct (id =? 0)%N; [exact Hin|].
    unfold clearTimeout. frame. apply in_or_app. left. exact Hin.
  - congruence.
  - rewrite Kc by reflexivity. exact T1.
  - rewrite Kc by reflexivity. exact S1.
  - rewrite Kc by reflexivity. exact D1.
Qed.


Lemma trigger_is_emitted_once_and_ends_the_loop_witness :
  count is_trigger
    (run (step (run initial script_until_inference)
               (DetectSettles (Some [sample_phone])))
         [TimerFires video_playing; DetectSettles (Some [sample_phone])]) = 1%nat
  /\ ticks
       (run (step (run initial script_until_inference)
                  (DetectSettles (Some [sample_phone])))
            [TimerFires video_playing; DetectSettles (Some [sample_phone])])
     = ticks (run initial script_until_inference).
Proof.
  assert (Hi : inflight (run initial script_until_inference) = [(Some 7%N, 480%N)])
    by (vm_compute; reflexivity).
  assert (Hd : distracted (frame_height 480) [sample_phone] = true)
    by (vm_compute; reflexivity).
  pose proof (trigger_is_emitted_once_and_ends_the_loop
                script_until_inference
                [TimerFires video_playing; DetectSettles (Some [sample_phone])]
                [sample_phone] (Some 7%N) 480%N [] Hi Hd) as H.
  cbv zeta in H. destruct H as (_ & _ & _ & _ & _ & Htk & Htr & _).
  split; [exact Htr | exact Htk].
Defined.

Lemma guard_fails model webcamRef_current :
  model = None \/ webcamRef_current = None
  \/ (exists v, webcamRef_current = Some v /\ readyState v <> 4%N) ->
  guard model webcamRef_current = None.
Proof.
  unfold guard. intros [-> | [-> | (v & -> & Hr)]].
  - reflexivity.
  - destruct model; reflexivity.
  - destruct model; [|reflexivity].
    destruct (N.eqb_spec (readyState v) 4); [contradiction | reflexivity].
Qed.

(** C7. On a tick where no model is present, the webcam ref is not set, or
    the video's ready state is not 4, [model.detect] is not called: the tick
    does nothing but set the timeout of the next tick, which is then
    pending. *)
Theorem tick_without_model_or_frame_skips_inference :
  forall (w : world) (id : N) (captured : option model_handle)
         (rest : list (N * option model_handle)) (v : video),
    timers w = (id, captured) :: rest ->
    captured = None \/ mounted w = false \/ readyState v <> 4%N ->
    let w' := step w (TimerFires v) in
    trace w' = trace w ++ [SetTimeout (next_id w) DETECTION_INTERVAL_MS]
    /\ count is_detect w' = count is_detect w
    /\ inflight w' = inflight w
    /\ timers w' = rest ++ [(next_id w, captured)]
    /\ ticks w' = S (ticks w).
Proof.
  intros w id captured rest v Ht Hg w'.
  assert (Hguard : guard captured (if mounted w then Some v else None) = None).
  { apply guard_fails. destruct Hg as [Hc | [Hm | Hr]].
    - left. exact Hc.
    - right. left. now rewrite Hm.
    - destruct (mounted w); [|right; left; reflexivity].
      right. right. exists v. split; [reflexivity | exact Hr]. }
  unfold w'. cbn [step]. rewrite Ht.
  unfold runDetection_call. frame. rewrite Hguard.
  unfold setTimeout, count. cbn [snd]. frame.
  rewrite filter_app, length_app. cbn [filter is_detect List.length].
  repeat split; lia.
Qed.

Lemma tick_without_model_or_frame_skips_inference_witness :
  trace (step (run initial [TfReadySettles true; CocoLoadSettles (Some 7%N)])
              (TimerFires video_starting))
  = trace (run initial [TfReadySettles true; CocoLoadSettles (Some 7%N)])
    ++ [SetTimeout
          (next_id (run initial [TfReadySettles true; CocoLoadSettles (Some 7%N)]))
          DETECTION_INTERVAL_MS].
Proof.
  assert (Ht : timers (run initial [TfReadySettles true; CocoLoadSettles (Some 7%N)])
               = [(1%N, Some 7%N)]) by (vm_compute; reflexivity).
  assert (Hr : readyState video_starting <> 4%N) by (vm_compute; discriminate).
  exact (proj1 (tick_without_model_or_frame_skips_inference
                  (run initial [TfReadySettles true; CocoLoadSettles (Some 7%N)])
                  1%N (Some 7%N) [] video_starting Ht
                  (or_intror (or_intror Hr)))).
Defined.

(** C8. When [tf.ready()] or [cocoSsd.load()] fails, no model is set, the
    status shown by the mounted component becomes the error text, and from
    then on no tick ever runs, no timeout is set, [model.detect] is never
    called, and neither loading call is made again. *)
Theorem model_load_failure_never_starts_the_loop :
  forall (before after : list input) (i : input),
    let w := run initial before in
    (phase w = AwaitTfReady /\ i = TfReadySettles false)
    \/ (phase w = AwaitCocoLoad /\ i = CocoLoadSettles None) ->
    let w' := step w i in
    let w'' := run w' after in
    model w' = None
    /\ phase w' = LoadFinished
    /\ (mounted w = true -> status w' = "Error loading AI. Check console.")
    /\ model w'' = None
    /\ status w'' = status w'
    /\ ticks w'' = 0%nat
    /\ count is_schedule w'' = 0%nat
    /\ count is_detect w'' = 0%nat
    /\ count is_load_call w'' = count is_load_call w.
Proof.
  intros before after i w Hfail w' w''.
  pose proof (reachable_single_chain before) as (H1 & H2 & H3). fold w in H2.
  assert (Hp : phase w <> LoadFinished)
    by (destruct Hfail as [[E _]|[E _]]; rewrite E; discriminate).
  destruct (H2 Hp) as (Hs & Htk & Hm & Ht & Hd & Hsc).
  assert (Ew' : w' = loadModel_catch w).
  { unfold w'. destruct Hfail as [[E ->]|[E ->]]; cbn [step]; now rewrite E. }
  assert (F : model w' = None /\ phase w' = LoadFinished
              /\ (mounted w = true -> status w' = "Error loading AI. Check console.")
              /\ scheduled w' = 0%nat /\ ticks w' = 0%nat
              /\ count is_schedule w' = 0%nat /\ count is_detect w' = 0%nat
              /\ count is_load_call w' = count is_load_call w).
  { rewrite Ew'. unfold loadModel_catch. frame.
    destruct (mounted w); unfold scheduled, count in *; frame;
      rewrite !filter_app, !length_app;
      cbn [filter is_schedule is_detect is_load_call List.length];
      repeat split; try assumption; try lia; try discriminate. }
  destruct F as (F1 & F2 & F3 & F4 & F5 & F6 & F7 & F8).
  destruct (halted_run after w' (conj F2 F4)) as (_ & Ktk & Km & Kst & Kc).
  fold w'' in Ktk, Km, Kst, Kc.
  repeat split; try assumption; try congruence.
  - rewrite Kc by reflexivity. exact F6.
  - rewrite Kc by reflexivity. exact F7.
  - rewrite Kc by reflexivity. exact F8.
Qed.

Lemma model_load_failure_never_starts_the_loop_witness :
  status (step (run initial [TfReadySettles true]) (CocoLoadSettles None))
  = "Error loading AI. Check console."
  /\ ticks (run (step (run initial [TfReadySettles true]) (CocoLoadSettles None))
                [TimerFires video_playing; TimerFires video_playing]) = 0%nat.
Proof.
  assert (Hp : phase (run initial [TfReadySettles true]) = AwaitCocoLoad)
    by (vm_compute; reflexivity).
  assert (Hm : mounted (run initial [TfReadySettles true]) = true)
    by (vm_compute; reflexivity).
  pose proof (model_load_failure_never_starts_the_loop
                [TfReadySettles true]
                [TimerFires video_playing; TimerFires video_playing]
                (CocoLoadSettles None)
                (or_intror (conj Hp eq_refl))) as H.
  cbv zeta in H. destruct H as (_ & _ & Hst & _ & _ & Htk & _).
  split; [exact (Hst Hm) | exact Htk].
Defined.

(** What the code does when [model.detect] rejects, in any run: the tick ends
    there, nothing is scheduled, and the loop never runs again. *)
Lemma rejected_inference_halts :
  forall (before after : list input) captured h rest,
    let w := run initial before in
    inflight w = (captured, h) :: rest ->
    let w' := step w (DetectSettles None) in
    trace w' = trace w ++ [UnhandledRejection]
    /\ halted w'
    /\ ticks (run w' after) = ticks w
    /\ count is_schedule (run w' after) = count is_schedule w.
Proof.
  intros before after captured h rest w Hi w'.
  pose proof (reachable_single_chain before) as (H1 & H2 & H3). fold w in H1, H2, H3.
  destruct (scheduled_one_inflight w _ _ H1 Hi) as [-> Et].
  assert (Hp : phase w = LoadFinished).
  { destruct (phase_dec (phase w)) as [|N]; [assumption|].
    destruct (H2 N) as (Hs & _). unfold scheduled in Hs. rewrite Hi, Et in Hs.
    cbn [List.length] in Hs. lia. }
  assert (Ew' : w' = emit [UnhandledRejection] (set_inflight [] w)).
  { unfold w'. cbn [step]. now rewrite Hi. }
  assert (Hh : halted w').
  { rewrite Ew'. split; [exact Hp|]. unfold scheduled. frame. now rewrite Et. }
  destruct (halted_run after w' Hh) as (_ & Ktk & _ & _ & Kc).
  repeat split.
  - now rewrite Ew'.
  - apply Hh.
  - apply Hh.
  - rewrite Ktk, Ew'. reflexivity.
  - rewrite Kc by reflexivity. rewrite Ew', count_emit. cbn [filter is_schedule List.length].
    unfold count. frame. lia.
Qed.


Theorem rejected_inference_is_not_rescheduled :
  forall after : list input,
    let w := run initial script_inference_rejects in
    trace w = [TfReady; CocoLoad; SetTimeout 1 DETECTION_INTERVAL_MS;
               Detect 7%N video_playing; UnhandledRejection]
    /\ timers w = []
    /\ ticks (run w after) = 1%nat
    /\ count is_schedule (run w after) = 1%nat.
Proof.
  intros after. cbv zeta.
  assert (Hi : inflight (run initial script_until_inference) = [(Some 7%N, 480%N)])
    by (vm_compute; reflexivity).
  pose proof (rejected_inference_halts script_until_inference after
                (Some 7%N) 480%N [] Hi) as H.
  cbv zeta in H. destruct H as (_ & _ & Htk & Hsc).
  assert (E : run initial script_inference_rejects
              = step (run initial script_until_inference) (DetectSettles None))
    by (vm_compute; reflexivity).
  rewrite E, Htk, Hsc.
  split; [|split; [|split]]; vm_compute; reflexivity.
Qed.

Lemma stale_timeout_tick (v : video) w id captured :
  mounted w = false -> timers w = [(id, captured)] ->
  step w (TimerFires v)
  = snd (setTimeout captured DETECTION_INTERVAL_MS (count_tick (set_timers [] w))).
Proof.
  intros Hm Ht. cbn [step]. rewrite Ht, Hm. unfold runDetection_call.
  rewrite (guard_fails captured None); [reflexivity | right; left; reflexivity].
Qed.

(** A timeout set by [runDetection] itself survives the unmounting: each time
    it comes due the tick runs, finds the webcam ref reset, and sets the next
    timeout. *)
Lemma stale_timeout_keeps_ticking (v : video) (n : nat) :
  forall w id captured,
    mounted w = false -> timers w = [(id, captured)] ->
    ticks (run w (repeat (TimerFires v) n)) = (ticks w + n)%nat
    /\ mounted (run w (repeat (TimerFires v) n)) = false
    /\ exists id', timers (run w (repeat (TimerFires v) n)) = [(id', captured)].
Proof.
  induction n as [|n IH]; intros w id captured Hm Ht.
  - cbn [repeat run fold_left]. split; [lia|]. split; [exact Hm | eauto].
  - cbn [repeat run fold_left].
    fold (run (step w (TimerFires v)) (repeat (TimerFires v) n)).
    pose proof (stale_timeout_tick v w id captured Hm Ht) as Es.
    destruct (IH (step w (TimerFires v)) (next_id w) captured) as (K1 & K2 & K3).
    + rewrite Es. exact Hm.
    + rewrite Es. reflexivity.
    + split; [|split; [exact K2 | exact K3]].
      rewrite K1, Es. unfold setTimeout. cbn [snd]. frame. lia.
Qed.

(** C4 (what the code does instead). The user leaves for the stats screen
    while the second tick is pending: the cleanup clears the first timeout
    only, the pending one is kept, and every time it comes due from then on a
    tick runs and sets the next one. *)
Theorem cleanup_misses_the_rescheduled_tick :
  forall (n : nat) (v : video),
    let w := run initial script_leave_during_gap in
    mounted w = false
    /\ trace w = [TfReady; CocoLoad; SetTimeout 1 DETECTION_INTERVAL_MS;
                  SetTimeout 2 DETECTION_INTERVAL_MS;
                  NavigateCall SCREENS.STATS None; ClearTimeout 1]
    /\ timers w = [(2%N, Some 7%N)]
    /\ ticks w = 1%nat
    /\ ticks (run w (repeat (TimerFires v) n)) = (1 + n)%nat.
Proof.
  intros n v. cbv zeta.
  assert (Hm : mounted (run initial script_leave_during_gap) = false)
    by (vm_compute; reflexivity).
  assert (Ht : timers (run initial script_leave_during_gap) = [(2%N, Some 7%N)])
    by (vm_compute; reflexivity).
  assert (Hk : ticks (run initial script_leave_during_gap) = 1%nat)
    by (vm_compute; reflexivity).
  destruct (stale_timeout_keeps_ticking v n _ _ _ Hm Ht) as (K & _ & _).
  rewrite K, Hk.
  split; [exact Hm|]. split; [vm_compute; reflexivity|].
  split; [exact Ht|]. split; reflexivity.
Qed.

(** The cleanup does cancel the timeout that the effect itself set: leaving
    before the first tick stops the loop for good. *)
Lemma cleanup_cancels_the_first_tick (after : list input) :
  ticks (run (run initial script_leave_before_first_tick) after) = 0%nat.
Proof.
  assert (Hp : phase (run initial script_leave_before_first_tick) = LoadFinished)
    by (vm_compute; reflexivity).
  assert (Hs : scheduled (run initial script_leave_before_first_tick) = 0%nat)
    by (vm_compute; reflexivity).
  destruct (halted_run after _ (conj Hp Hs)) as (_ & Ktk & _).
  rewrite Ktk. vm_compute. reflexivity.
Qed.

(** Leaving while a tick is waiting for its inference does not discard the
    result: the phone is reported from the stats screen. *)
Example stale_inference_still_triggers :
  currentScreen
    (app (run initial
            [TfReadySettles true; CocoLoadSettles (Some 7%N);
             TimerFires video_playing; ClickViewStats;
             DetectSettles (Some [sample_phone])])) = SCREENS.ALERT.
Proof. vm_compute. reflexivity. Qed.

(** ** Invariants of the component's runs *)

Lemma guard_some c wc m v :
  guard c wc = Some (m, v) -> c = Some m /\ wc = Some v /\ readyState v = 4%N.
Proof.
  unfold guard. destruct c as [m'|]; [|discriminate].
  destruct wc as [v'|]; [|discriminate].
  destruct (N.eqb_spec (readyState v') 4); [|discriminate].
  intros [= -> ->]. auto.
Qed.

Lemma detect_uses_log h D model :
  Forall (detect_uses model) (fst (distracted_run h D)).
Proof.
  unfold distracted_run. induction D as [|d D IH]; cbn [some fst]; [constructor|].
  assert (Hd : Forall (detect_uses model) (fst (distracted_callback h d))).
  { unfold distracted_callback. destruct (bbox d) as [[[x y] wd] ht]. cbn [fst].
    destruct (_ && _); repeat constructor. }
  destruct (distracted_callback h d) as [log b]. cbn [fst] in Hd.
  destruct b; [exact Hd|].
  destruct (some (distracted_callback h) D) as [log' b']. cbn [fst] in *.
  apply Forall_app. split; assumption.
Qed.

Lemma Forall_filter {A} (P : A -> Prop) (g : A -> bool) l :
  Forall P l -> Forall P (filter g l).
Proof.
  induction 1 as [|a l Ha _ IH]; cbn [filter]; [constructor|].
  destruct (g a); [constructor|]; assumption.
Qed.

Lemma coherent_initial : coherent initial.
Proof.
  unfold coherent. cbn.
  split; [constructor|]. split; [constructor|].
  split; [repeat constructor|].
  split; [intros _; repeat split; reflexivity | intros; discriminate].
Qed.

(** Changes that leave the component's cells alone keep it coherent. *)
Lemma coherent_frame w w' :
  coherent w ->
  model w' = model w -> status w' = status w -> phase w' = phase w ->
  timerId w' = timerId w -> inflight w' = inflight w ->
  Forall (fun t => snd t = model w) (timers w') ->
  (timers w = [] -> timers w' = []) ->
  Forall (detect_uses (model w)) (trace w') ->
  coherent w'.
Proof.
  intros (A1 & A2 & A3 & A4 & A5) Em Es Ep Et Ei Hts Hnil Htr.
  unfold coherent. rewrite Em, Es, Ep, Et, Ei.
  split; [exact Hts|]. split; [exact A2|]. split; [exact Htr|]. split.
  - intros N. destruct (A4 N) as (? & ? & ? & ? & ?). repeat split; auto.
  - intros Hp. destruct (A5 Hp) as [?|(? & Htm & ? & ?)]; [left; assumption|].
    right. repeat split; auto.
Qed.

Lemma coherent_step w i : coherent w -> coherent (step w i).
Proof.
  intros Hw. pose proof Hw as (A1 & A2 & A3 & A4 & A5).
  destruct i as [ok|loaded|v|result| |].
  - (* tf.ready() *)
    cbn [step]. destruct (phase w) eqn:Hp; try exact Hw.
    destruct A4 as (Hm & Hs & Ht & Htm & Hi); [congruence|].
    destruct ok; unfold loadModel_catch, coherent; frame.
    + rewrite Htm, Hi, Hm, Hs, Ht. repeat split; try constructor; try discriminate.
      rewrite <- Hm. apply Forall_app. split; [exact A3 | repeat constructor].
    + destruct (mounted w); frame; rewrite Htm, Hi, Hm;
        (split; [constructor|]); (split; [constructor|]);
        (split; [rewrite <- Hm; apply Forall_app; split; [exact A3 | repeat constructor]|]);
        (split; [congruence|]); intros _; right; repeat split; auto.
  - (* cocoSsd.load() *)
    cbn [step]. destruct (phase w) eqn:Hp; try exact Hw.
    destruct A4 as (Hm & Hs & Ht & Htm & Hi); [congruence|].
    assert (HD : forall mo, Forall (detect_uses mo) (trace w)).
    { intros mo. eapply Forall_impl; [|exact A3].
      intros [] He; cbn in *; auto. destruct He as [_ He]. congruence. }
    destruct loaded as [m|]; unfold loadModel_done, loadModel_catch, coherent; frame.
    + destruct (mounted w); frame.
      * unfold loop_cleanup. frame. rewrite Ht.
        unfold loop_effect. frame. unfold setTimeout. frame. cbn [fst snd]. frame.
        rewrite Htm, Hi.
        split; [repeat constructor|]. split; [constructor|].
        split; [apply Forall_app; split; [apply HD | repeat constructor]|].
        split; [congruence|]. intros _. left. split; [discriminate | reflexivity].
      * rewrite Htm, Hi, Hm. split; [constructor|]. split; [constructor|].
        split; [apply HD|]. split; [congruence|].
        intros _. right. repeat split; auto.
    + destruct (mounted w); frame; rewrite Htm, Hi, Hm;
        (split; [constructor|]); (split; [constructor|]);
        (split; [apply Forall_app; split; [apply HD | repeat constructor]|]);
        (split; [congruence|]); intros _; right; repeat split; auto.
  - (* a timeout comes due *)
    cbn [step]. destruct (timers w) as [|[id c] rest] eqn:Et; [exact Hw|].
    assert (Hp : phase w = LoadFinished).
    { destruct (phase_dec (phase w)) as [|N]; [assumption|].
      destruct (A4 N) as (_ & _ & _ & ? & _). congruence. }
    assert (Hm : model w <> None /\ status w = "AI Ready. Get to work!").
    { destruct (A5 Hp) as [?|(_ & ? & _)]; [assumption | congruence]. }
    assert (Hc : c = model w) by (inversion A1; assumption).
    assert (Hr : Forall (fun t => snd t = model w) rest) by (inversion A1; assumption).
    unfold runDetection_call, coherent.
    destruct (guard c _) as [[m v']|] eqn:Hg.
    + apply guard_some in Hg. destruct Hg as (Hcm & Hv & Hrs). frame.
      split; [exact Hr|].
      split; [apply Forall_app; split; [exact A2 | repeat constructor; exact Hc]|].
      split; [apply Forall_app; split; [exact A3|]|].
      { repeat constructor; [exact Hrs | congruence]. }
      split; [congruence|]. intros _. left. exact Hm.
    + unfold setTimeout. cbn [snd]. frame.
      split; [apply Forall_app; split; [exact Hr | repeat constructor; exact Hc]|].
      split; [exact A2|].
      split; [apply Forall_app; split; [exact A3 | repeat constructor]|].
      split; [congruence|]. intros _. left. exact Hm.
  - (* model.detect() settles *)
    cbn [step]. destruct (inflight w) as [|[c h] rest] eqn:Ei; [exact Hw|].
    assert (Hp : phase w = LoadFinished).
    { destruct (phase_dec (phase w)) as [|N]; [assumption|].
      destruct (A4 N) as (_ & _ & _ & _ & ?). congruence. }
    assert (Hm : model w <> None /\ status w = "AI Ready. Get to work!").
    { destruct (A5 Hp) as [?|(_ & _ & ? & _)]; [assumption | congruence]. }
    assert (Hc : c = model w) by (inversion A2; assumption).
    assert (Hr : Forall (fun t => fst t = model w) rest) by (inversion A2; assumption).
    unfold runDetection_resume.
    destruct result as [predictions|].
    + pose proof (detect_uses_log (frame_height h) predictions (model w)) as Hlog.
      destruct (distracted_run (frame_height h) predictions) as [log d].
      cbn [fst] in Hlog.
      destruct d.
      * unfold call_navigate. frame.
        change (renders_WorkScreen SCREENS.ALERT) with false. cbn [negb].
        rewrite andb_true_r.
        assert (Ht : Forall (detect_uses (model w))
                       ((trace w ++ log)
                          ++ [NavigateCall SCREENS.ALERT
                                (Some {| insult_field := Some mockInsult |})])).
        { apply Forall_app. split; [apply Forall_app; split; assumption|].
          repeat constructor. }
        destruct (mounted w).
        -- unfold unmount, loop_cleanup. frame.
           destruct (timerId w) as [tid|]; [destruct (tid =? 0)%N|];
             unfold clearTimeout, coherent; frame;
             (split; [first [exact A1 | apply Forall_filter; exact A1]|]);
             (split; [exact Hr|]);
             (split; [first [exact Ht | apply Forall_app; split; [exact Ht | repeat constructor]]|]);
             (split; [congruence|]); intros _; left; exact Hm.
        -- unfold coherent. frame.
           split; [exact A1|]. split; [exact Hr|]. split; [exact Ht|].
           split; [congruence|]. intros _. left. exact Hm.
      * unfold setTimeout, coherent. cbn [snd]. frame.
        split; [apply Forall_app; split; [exact A1 | repeat constructor; exact Hc]|].
        split; [exact Hr|].
        split; [apply Forall_app; split; [apply Forall_app; split; assumption
                                         | repeat constructor]|].
        split; [congruence|]. intros _. left. exact Hm.
    + unfold coherent. frame.
      split; [exact A1|]. split; [exact Hr|].
      split; [apply Forall_app; split; [exact A3 | repeat constructor]|].
      split; [congruence|]. intros _. left. exact Hm.
  - (* navigate(SCREENS.STATS) *)
    cbn [step]. unfold call_navigate. frame.
    change (renders_WorkScreen SCREENS.STATS) with false. cbn [negb].
    rewrite andb_true_r.
    assert (Ht : Forall (detect_uses (model w))
                   (trace w ++ [NavigateCall SCREENS.STATS None]))
      by (apply Forall_app; split; [exact A3 | repeat constructor]).
    destruct (mounted w).
    + unfold unmount, loop_cleanup. frame.
      destruct (timerId w) as [tid|] eqn:Etid; [destruct (tid =? 0)%N|];
        unfold clearTimeout;
        apply (coherent_frame w); frame; auto;
        try (apply Forall_filter; exact A1);
        try (apply Forall_app; split; [exact Ht | repeat constructor]);
        try (intros ->; reflexivity).
    + apply (coherent_frame w); frame; auto.
  - (* navigate(SCREENS.WORK) *)
    cbn [step]. unfold call_navigate. frame.
    change (renders_WorkScreen SCREENS.WORK) with true. cbn [negb].
    rewrite andb_false_r.
    unfold coherent. frame.
    split; [exact A1|]. split; [exact A2|].
    split; [apply Forall_app; split; [exact A3 | repeat constructor]|].
    split; assumption.
Qed.

Lemma call_navigate_app screen data w :
  app (call_navigate screen data w) = navigate screen data (app w).
Proof.
  unfold call_navigate. frame. destruct (_ && _); [|reflexivity].
  unfold unmount, loop_cleanup. frame.
  destruct (timerId w) as [id|]; [destruct (id =? 0)%N|]; reflexivity.
Qed.

(** A [navigate] call adds itself to the trace, followed at most by the
    cleanup's [clearTimeout]. *)
Lemma call_navigate_trace screen data w :
  exists tail,
    trace (call_navigate screen data w) = trace w ++ NavigateCall screen data :: tail
    /\ Forall (fun e => exists id, e = ClearTimeout id) tail.
Proof.
  unfold call_navigate. frame. destruct (_ && _).
  - unfold unmount, loop_cleanup. frame.
    destruct (timerId w) as [id|]; [destruct (id =? 0)%N|].
    + exists []. split; [reflexivity | constructor].
    + exists [ClearTimeout id]. unfold clearTimeout. frame.
      rewrite <- app_assoc. split; [reflexivity | repeat constructor]. eauto.
    + exists []. split; [reflexivity | constructor].
  - exists []. split; [reflexivity | constructor].
Qed.

Lemma timeout_is_400_log h D :
  Forall timeout_is_400 (fst (distracted_run h D)).
Proof.
  unfold distracted_run. induction D as [|d D IH]; cbn [some fst]; [constructor|].
  assert (Hd : Forall timeout_is_400 (fst (distracted_callback h d))).
  { unfold distracted_callback. destruct (bbox d) as [[[x y] wd] ht]. cbn [fst].
    destruct (_ && _); repeat constructor. }
  destruct (distracted_callback h d) as [log b]. cbn [fst] in Hd.
  destruct b; [exact Hd|].
  destruct (some (distracted_callback h) D) as [log' b']. cbn [fst] in *.
  apply Forall_app. split; assumption.
Qed.

Lemma accounted_initial : accounted initial.
Proof.
  unfold accounted, count. cbn.
  split; [lia|]. split; [lia|]. split; [repeat constructor|]. repeat split.
Qed.

Lemma navigate_elsewhere st screen data :
  screen <> SCREENS.ALERT ->
  distractionCount (navigate screen data st) = distractionCount st
  /\ insult (navigate screen data st) = insult st.
Proof.
  intros Hs. unfold navigate.
  destruct (String.eqb_spec screen SCREENS.ALERT); [contradiction|].
  split; reflexivity.
Qed.

(** A [navigate] call without a payload keeps the accounts. *)
Lemma accounted_call_navigate screen w :
  screen <> SCREENS.ALERT ->
  accounted w -> accounted (call_navigate screen None w).
Proof.
  intros Hs (B1 & B6 & B2 & B3 & B4 & B5).
  destruct (call_navigate_frame screen None w) as (_ & _ & Hp & Hi & Htk & Hl & _).
  destruct (call_navigate_trace screen None w) as (tail & Etr & Htail).
  unfold accounted.
  rewrite !count_call_navigate, Hp, Htk, call_navigate_app by reflexivity.
  cbn [is_schedule is_tf_ready is_coco_load is_trigger is_detect]. rewrite !Nat.add_0_r.
  split; [lia|]. split; [lia|]. split.
  { rewrite Etr. apply Forall_app. split; [exact B2|]. constructor; [exact I|].
    eapply Forall_impl; [|exact Htail]. intros e [id ->]. exact I. }
  split; [exact B3|]. split; [exact B4|].
  rewrite (proj1 (navigate_elsewhere (app w) screen None Hs)). exact B5.
Qed.

Lemma accounted_step w i :
  single_chain w -> accounted w -> accounted (step w i).
Proof.
  intros (S1 & S2 & S3) Hw. pose proof Hw as (B1 & B6 & B2 & B3 & B4 & B5).
  destruct i as [ok|loaded|v|result| |]; cbn [step].
  - destruct (phase w) eqn:Hp; try exact Hw.
    destruct ok; unfold loadModel_catch; frame; [|destruct (mounted w)];
      unfold accounted, count in *; frame;
      rewrite !filter_app, !length_app;
      cbn [filter is_schedule is_tf_ready is_coco_load is_trigger is_detect List.length];
      rewrite ?Nat.add_0_r;
      (split; [lia|]); (split; [lia|]); (split; [apply Forall_app; split; [exact B2 | repeat constructor]|]);
      repeat split; auto; try lia.
  - destruct (phase w) eqn:Hp; try exact Hw.
    destruct loaded as [m|]; unfold loadModel_done, loadModel_catch.
    + frame. destruct (mounted w).
      * unfold loop_effect, loop_cleanup, setTimeout, clearTimeout. frame.
        destruct (timerId w) as [tid|]; [destruct (tid =? 0)%N|];
          frame; cbn [fst snd]; unfold accounted, count in *; frame;
          rewrite ?filter_app, ?length_app;
          cbn [filter is_schedule is_tf_ready is_coco_load is_trigger is_detect List.length];
          rewrite ?Nat.add_0_r;
          try (pose proof (filter_length_le
                  (fun t : N * option model_handle => negb (fst t =? tid)%N)
                  (timers w)));
          (split; [lia|]); (split; [lia|]);
          (split; [repeat (apply Forall_app; split; [|repeat constructor]); exact B2|]);
          repeat split; auto; try lia.
      * unfold accounted, count in *; frame. repeat split; auto; try lia.
    + frame. destruct (mounted w); unfold accounted, count in *; frame;
        rewrite !filter_app, !length_app;
        cbn [filter is_schedule is_tf_ready is_coco_load is_trigger is_detect List.length];
        rewrite ?Nat.add_0_r;
        (split; [lia|]); (split; [lia|]); (split; [apply Forall_app; split; [exact B2 | repeat constructor]|]);
        repeat split; auto; try lia.
  - destruct (timers w) as [|[id c] rest] eqn:Et; [exact Hw|].
    unfold runDetection_call. destruct (guard c _) as [[m v']|];
      unfold setTimeout; cbn [snd]; unfold accounted, count in *; frame;
      rewrite ?filter_app, ?length_app;
      cbn [filter is_schedule is_tf_ready is_coco_load is_trigger is_detect List.length] in *;
      rewrite ?Nat.add_0_r;
      (split; [lia|]); (split; [lia|]); (split; [apply Forall_app; split; [exact B2 | repeat constructor]|]);
      repeat split; auto; try lia.
  - destruct (inflight w) as [|[c h] rest] eqn:Ei; [exact Hw|].
    assert (Ht0 : count is_trigger w = 0%nat).
    { destruct S3 as [|[_ Hs]]; [assumption|]. unfold scheduled in Hs.
      rewrite Ei in Hs. rewrite Nat.add_comm in Hs. cbn [List.length] in Hs. lia. }
    unfold runDetection_resume. destruct result as [predictions|].
    + pose proof (timeout_is_400_log (frame_height h) predictions) as Hlog.
      assert (Hc : forall f, (forall cls sc y up, f (ConsoleLog cls sc y up) = false) ->
                   filter f (fst (distracted_run (frame_height h) predictions)) = [])
        by (intros f Hf; now apply distracted_run_log).
      destruct (distracted_run (frame_height h) predictions) as [log d].
      cbn [fst] in Hlog, Hc.
      set (w1 := emit log (set_inflight rest w)).
      assert (A1 : accounted w1 /\ count is_trigger w1 = 0%nat).
      { unfold w1, accounted, count in *. frame.
        rewrite !filter_app, !length_app, !Hc by reflexivity.
        cbn [List.length]. rewrite !Nat.add_0_r.
        split; [|exact Ht0].
        split; [lia|]. split; [lia|]. split; [apply Forall_app; split; assumption|].
        repeat split; auto; try lia. }
      destruct A1 as ((C1 & C6 & C2 & C3 & C4 & C5) & Ht1).
      destruct d.
      * destruct (call_navigate_frame SCREENS.ALERT
                    (Some {| insult_field := Some mockInsult |}) w1)
          as (_ & _ & Hp & Hi & Htk & Hl & _).
        destruct (call_navigate_trace SCREENS.ALERT
                    (Some {| insult_field := Some mockInsult |}) w1)
          as (tail & Etr & Htail).
        unfold accounted.
        rewrite !count_call_navigate, Hp, Htk, call_navigate_app by reflexivity.
        cbn [is_schedule is_tf_ready is_coco_load is_trigger is_detect].
        change ((SCREENS.ALERT =? SCREENS.ALERT)%string) with true.
        rewrite !Nat.add_0_r.
        split; [lia|]. split; [lia|]. split.
        { rewrite Etr. apply Forall_app. split; [exact C2|]. constructor; [exact I|].
          eapply Forall_impl; [|exact Htail]. intros e [id ->]. exact I. }
        split; [exact C3|]. split; [exact C4|].
        rewrite navigate_alert_count, C5, Ht1. reflexivity.
      * unfold setTimeout. cbn [snd]. unfold accounted, count in *. frame.
        rewrite !filter_app, !length_app in *.
        cbn [filter is_schedule is_tf_ready is_coco_load is_trigger is_detect List.length] in *.
        rewrite ?Nat.add_0_r in *.
        split; [lia|]. split; [lia|]. split; [apply Forall_app; split; [exact C2 | repeat constructor]|].
        repeat split; auto; try lia.
    + unfold accounted, count in *. frame.
      rewrite !filter_app, !length_app.
      cbn [filter is_schedule is_tf_ready is_coco_load is_trigger is_detect List.length].
      rewrite ?Nat.add_0_r.
      split; [lia|]. split; [lia|]. split; [apply Forall_app; split; [exact B2 | repeat constructor]|].
      repeat split; auto; try lia.
  - apply accounted_call_navigate; [discriminate | exact Hw].
  - apply accounted_call_navigate; [discriminate | exact Hw].
Qed.

Lemma fresh_loop_initial : fresh_loop initial.
Proof.
  unfold fresh_loop. cbn. split; [lia|]. intros _. split; [reflexivity | left; reflexivity].
Qed.

Lemma filter_own_timer (id : N) (captured : option model_handle) :
  filter (fun t : N * option model_handle => negb (fst t =? id)%N) [(id, captured)] = [].
Proof. cbn. now rewrite N.eqb_refl. Qed.

Lemma fresh_loop_step w i : fresh_loop w -> fresh_loop (step w i).
Proof.
  intros Hw. pose proof Hw as (F1 & F2).
  destruct i as [ok|loaded|v|result| |]; cbn [step].
  - destruct (phase w); try exact Hw.
    destruct ok; unfold loadModel_catch; frame; [|destruct (mounted w) eqn:Hm];
      exact Hw.
  - destruct (phase w); try exact Hw.
    destruct loaded as [m|]; unfold loadModel_done, loadModel_catch; frame.
    + destruct (mounted w) eqn:Hm; [|exact Hw].
      unfold loop_effect, loop_cleanup, setTimeout, clearTimeout. frame.
      destruct (timerId w) as [tid|] eqn:Etid; [destruct (tid =? 0)%N eqn:E0|];
        frame; cbn [fst snd]; unfold fresh_loop; frame;
        (split; [lia|]); intros Htk;
        destruct (F2 Htk) as (Hi & [Ht | (id & c & Ht & Hid & Hn0 & _)]);
        (split; [exact Hi|]); right; rewrite ?Ht;
        try (exists (next_id w), (Some m); cbn [app filter];
             repeat split; auto; lia).
      * (* a remembered id of 0 would not be cleared *)
        injection Hid as ->. apply N.eqb_eq in E0. contradiction.
      * injection Hid as ->. rewrite filter_own_timer.
        exists (next_id w), (Some m). repeat split; auto. lia.
      * discriminate.
    + destruct (mounted w) eqn:Hm; exact Hw.
  - destruct (timers w) as [|[id c] rest]; [exact Hw|].
    unfold runDetection_call. destruct (guard c _) as [[m v']|];
      unfold setTimeout; cbn [snd]; unfold fresh_loop; frame;
      (split; [lia|]); intros; discriminate.
  - destruct (inflight w) as [|[c h] rest] eqn:Ei; [exact Hw|].
    assert (Htk : ticks w <> 0%nat).
    { intros E. destruct (F2 E) as [? _]. discriminate. }
    unfold runDetection_resume. destruct result as [predictions|].
    + destruct (distracted_run (frame_height h) predictions) as [log d].
      destruct d.
      * destruct (call_navigate_frame SCREENS.ALERT
                    (Some {| insult_field := Some mockInsult |})
                    (emit log (set_inflight rest w)))
          as (_ & _ & _ & _ & Ht & _).
        split.
        -- unfold call_navigate, unmount, loop_cleanup, clearTimeout. frame.
           destruct (_ && _); [|exact F1].
           destruct (timerId w) as [tid|]; [destruct (tid =? 0)%N|]; exact F1.
        -- rewrite Ht. frame. intros E. contradiction.
      * unfold setTimeout. cbn [snd]. unfold fresh_loop. frame.
        split; [lia|]. intros E. contradiction.
    + unfold fresh_loop. frame. split; [exact F1|]. intros E. contradiction.
  - unfold call_navigate. frame.
    change (renders_WorkScreen SCREENS.STATS) with false. cbn [negb].
    rewrite andb_true_r.
    destruct (mounted w) eqn:Hm.
    + unfold unmount, loop_cleanup, clearTimeout. frame.
      destruct (timerId w) as [tid|] eqn:Etid; [destruct (tid =? 0)%N eqn:E0|];
        unfold fresh_loop; frame; (split; [exact F1|]); intros Htk;
        destruct (F2 Htk) as (Hi & [Ht | (id & c & Ht & Hid & Hn0 & _)]);
        (split; [exact Hi|]); left; rewrite ?Ht; try reflexivity.
      * injection Hid as ->. apply N.eqb_eq in E0. contradiction.
      * injection Hid as ->. apply filter_own_timer.
      * discriminate.
    + unfold fresh_loop. frame. split; [exact F1|]. intros Htk.
      destruct (F2 Htk) as (Hi & [Ht | (id & c & _ & _ & _ & Hmt)]).
      * split; [exact Hi | left; exact Ht].
      * congruence.
  - unfold call_navigate. frame.
    change (renders_WorkScreen SCREENS.WORK) with true. cbn [negb].
    rewrite andb_false_r. unfold fresh_loop. frame. split; [exact F1 | exact F2].
Qed.

(** Once the component is gone with nothing left of its loop, nothing of the
    loop ever happens again. *)
Lemma dormant_step w i :
  dormant w ->
  dormant (step w i)
  /\ ticks (step w i) = ticks w
  /\ model (step w i) = model w
  /\ count is_schedule (step w i) = count is_schedule w
  /\ count is_detect (step w i) = count is_detect w
  /\ count is_trigger (step w i) = count is_trigger w.
Proof.
  intros [Hm Hs]. destruct (scheduled_zero w Hs) as [Ht Hi].
  assert (Hw : dormant w) by (split; assumption).
  destruct i as [ok|loaded|v|result| |]; cbn [step].
  - destruct (phase w); try (repeat split; assumption).
    destruct ok; unfold loadModel_catch; frame; rewrite ?Hm;
      unfold dormant, scheduled, count in *; frame;
      rewrite ?filter_app, ?length_app; cbn; repeat split; auto; lia.
  - destruct (phase w); try (repeat split; assumption).
    destruct loaded as [m|]; unfold loadModel_done, loadModel_catch;
      frame; rewrite ?Hm;
      unfold dormant, scheduled, count in *; frame;
      rewrite ?filter_app, ?length_app; cbn; repeat split; auto; lia.
  - rewrite Ht. repeat split; assumption.
  - rewrite Hi. repeat split; assumption.
  - unfold call_navigate. frame. rewrite Hm. cbn [andb].
    unfold dormant, scheduled, count in *; frame.
    rewrite ?filter_app, ?length_app; cbn; repeat split; auto; lia.
  - unfold call_navigate. frame. rewrite Hm. cbn [andb].
    unfold dormant, scheduled, count in *; frame.
    rewrite ?filter_app, ?length_app; cbn; repeat split; auto; lia.
Qed.

Lemma dormant_run script : forall w,
  dormant w ->
  ticks (run w script) = ticks w
  /\ model (run w script) = model w
  /\ count is_schedule (run w script) = count is_schedule w
  /\ count is_detect (run w script) = count is_detect w
  /\ count is_trigger (run w script) = count is_trigger w.
Proof.
  induction script as [|i script IH]; intros w Hw; [repeat split|].
  destruct (dormant_step w i Hw) as (H0 & H1 & H2 & H3 & H4 & H5).
  destruct (IH (step w i) H0) as (K1 & K2 & K3 & K4 & K5).
  cbn [run fold_left]. fold (run (step w i) script).
  repeat split; congruence.
Qed.

(** A component that has left the screen never calls the model again. *)
Lemma unmounted_step w i :
  mounted w = false ->
  mounted (step w i) = false
  /\ count is_detect (step w i) = count is_detect w.
Proof.
  intros Hm.
  destruct i as [ok|loaded|v|result| |]; cbn [step].
  - destruct (phase w); try (split; [assumption | reflexivity]).
    destruct ok; unfold loadModel_catch; frame; rewrite ?Hm;
      unfold count; frame; rewrite ?filter_app, ?length_app; cbn; split; auto; lia.
  - destruct (phase w); try (split; [assumption | reflexivity]).
    destruct loaded as [m|]; unfold loadModel_done, loadModel_catch;
      frame; rewrite ?Hm;
      unfold count; frame; rewrite ?filter_app, ?length_app; cbn; split; auto; lia.
  - destruct (timers w) as [|[id c] rest]; [split; [assumption | reflexivity]|].
    rewrite Hm. unfold runDetection_call.
    rewrite (guard_fails c None) by (right; left; reflexivity).
    unfold setTimeout. cbn [snd]. unfold count. frame.
    rewrite filter_app, length_app. cbn. split; [assumption | lia].
  - destruct (inflight w) as [|[c h] rest]; [split; [assumption | reflexivity]|].
    unfold runDetection_resume. destruct result as [predictions|].
    + pose proof (distracted_run_log (frame_height h) is_detect predictions
                    ltac:(reflexivity)) as Hlog.
      destruct (distracted_run (frame_height h) predictions) as [log d].
      cbn [fst] in Hlog. destruct d.
      * destruct (call_navigate_frame SCREENS.ALERT
                    (Some {| insult_field := Some mockInsult |})
                    (emit log (set_inflight rest w)))
          as (_ & _ & _ & _ & _ & _ & Hmt).
        split; [apply Hmt; exact Hm|].
        rewrite count_call_navigate, count_emit, Hlog by reflexivity.
        unfold count. frame. cbn. lia.
      * unfold setTimeout. cbn [snd]. unfold count. frame.
        rewrite !filter_app, !length_app, Hlog. cbn. split; [assumption | lia].
    + unfold count. frame. rewrite filter_app, length_app. cbn.
      split; [assumption | lia].
  - destruct (call_navigate_frame SCREENS.STATS None w) as (_ & _ & _ & _ & _ & _ & Hmt).
    split; [apply Hmt; exact Hm|]. rewrite count_call_navigate by reflexivity.
    cbn. lia.
  - destruct (call_navigate_frame SCREENS.WORK None w) as (_ & _ & _ & _ & _ & _ & Hmt).
    split; [apply Hmt; exact Hm|]. rewrite count_call_navigate by reflexivity.
    cbn. lia.
Qed.


Lemma reachable_coherent script : coherent (run initial script).
Proof.
  unfold run. rewrite <- fold_left_rev_right.
  induction (rev script) as [|i s IH]; cbn [fold_right];
    [apply coherent_initial | now apply coherent_step].
Qed.

Lemma reachable_accounted script : accounted (run initial script).
Proof.
  assert (H : single_chain (run initial script) /\ accounted (run initial script)).
  { unfold run. rewrite <- fold_left_rev_right.
    induction (rev script) as [|i s [IH1 IH2]]; cbn [fold_right].
    - split; [apply single_chain_initial | apply accounted_initial].
    - split; [now apply single_chain_step | now apply accounted_step]. }
  apply H.
Qed.

Lemma reachable_fresh_loop script : fresh_loop (run initial script).
Proof.
  unfold run. rewrite <- fold_left_rev_right.
  induction (rev script) as [|i s IH]; cbn [fold_right];
    [apply fresh_loop_initial | now apply fresh_loop_step].
Qed.

(** ** Further properties of the loop *)

(** X1. Ticks never overlap: in every run at most one tick is either waiting
    for its timeout or suspended in its inference call. *)
Theorem ticks_never_overlap :
  forall script : list input,
    (List.length (timers (run initial script))
     + List.length (inflight (run initial script)) <= 1)%nat.
Proof.
  intros script. destruct (reachable_single_chain script) as (H & _). exact H.
Qed.



(** X3. Every [model.detect] call of a run is made on a video whose ready
    state is 4 and with the model that the load set. *)
Theorem detect_only_on_ready_video_with_loaded_model :
  forall (script : list input) (m : model_handle) (v : video),
    In (Detect m v) (trace (run initial script)) ->
    readyState v = 4%N /\ model (run initial script) = Some m.
Proof.
  intros script m v Hin.
  destruct (reachable_coherent script) as (_ & _ & H & _).
  rewrite Forall_forall in H. exact (H _ Hin).
Qed.

Lemma detect_only_on_ready_video_with_loaded_model_witness :
  readyState video_playing = 4%N
  /\ model (run initial script_until_inference) = Some 7%N.
Proof.
  assert (Hin : In (Detect 7%N video_playing)
                   (trace (run initial script_until_inference)))
    by (vm_compute; auto).
  exact (detect_only_on_ready_video_with_loaded_model
           script_until_inference 7%N video_playing Hin).
Defined.

(** X4. In every run each tick was started by a timeout, each tick calls the
    model at most once, and every timeout the code sets waits 400 ms. *)
Theorem every_tick_comes_from_a_400ms_timeout :
  forall script : list input,
    let w := run initial script in
    (ticks w + List.length (timers w) <= count is_schedule w)%nat
    /\ (count is_detect w <= ticks w)%nat
    /\ (forall id delay, In (SetTimeout id delay) (trace w) ->
          delay = DETECTION_INTERVAL_MS).
Proof.
  intros script w.
  destruct (reachable_accounted script) as (H1 & H2 & H3 & _).
  fold w in H1, H2, H3. split; [exact H1|]. split; [exact H2|].
  intros id delay Hin. rewrite Forall_forall in H3. exact (H3 _ Hin).
Qed.

Lemma every_tick_comes_from_a_400ms_timeout_witness :
  400%N = DETECTION_INTERVAL_MS.
Proof.
  assert (Hin : In (SetTimeout 1 400)
                   (trace (run initial script_until_inference)))
    by (vm_compute; auto).
  exact (proj2 (proj2 (every_tick_comes_from_a_400ms_timeout
                         script_until_inference)) 1%N 400%N Hin).
Defined.

(** X5. Once WorkScreen has left the screen, [model.detect] is never called
    again, whatever timeouts are still pending. *)
Theorem no_inference_after_leaving :
  forall (w : world) (script : list input),
    mounted w = false ->
    mounted (run w script) = false
    /\ count is_detect (run w script) = count is_detect w.
Proof.
  intros w script. revert w.
  induction script as [|i script IH]; intros w Hm; [split; [exact Hm | reflexivity]|].
  destruct (unmounted_step w i Hm) as [H1 H2].
  destruct (IH (step w i) H1) as [K1 K2].
  cbn [run fold_left]. fold (run (step w i) script).
  split; [exact K1 | congruence].
Qed.

Lemma no_inference_after_leaving_witness :
  count is_detect
    (run (run initial script_leave_during_gap)
         [TimerFires video_playing; TimerFires video_playing])
  = count is_detect (run initial script_leave_during_gap).
Proof.
  assert (Hm : mounted (run initial script_leave_during_gap) = false)
    by (vm_compute; reflexivity).
  exact (proj2 (no_inference_after_leaving
                  (run initial script_leave_during_gap)
                  [TimerFires video_playing; TimerFires video_playing] Hm)).
Defined.

(** X6. When the user leaves for the stats screen before any tick has run,
    the cleanup cancels the loop for good: no tick ever runs, no timeout is
    set and the model is never called, also when the model finishes loading
    after the user left. *)
Theorem leaving_before_the_first_tick_stops_the_loop :
  forall (before after : list input),
    let w := run initial before in
    ticks w = 0%nat ->
    let w' := run (step w ClickViewStats) after in
    ticks w' = 0%nat
    /\ count is_detect w' = 0%nat
    /\ count is_schedule w' = count is_schedule w
    /\ timers w' = [].
Proof.
  intros before after w Htk w'.
  pose proof (reachable_fresh_loop (before ++ [ClickViewStats])) as HF.
  rewrite run_app in HF. cbn [run fold_left] in HF. fold (run initial before) in HF.
  fold w in HF.
  destruct (call_navigate_frame SCREENS.STATS None w)
    as (_ & _ & _ & Hi & Ht & _ & Hmt).
  assert (Hm : mounted (step w ClickViewStats) = false).
  { cbn [step]. unfold call_navigate. frame.
    change (renders_WorkScreen SCREENS.STATS) with false. cbn [negb].
    rewrite andb_true_r. destruct (mounted w) eqn:E; [reflexivity | exact E]. }
  assert (Htk' : ticks (step w ClickViewStats) = 0%nat)
    by (cbn [step]; rewrite Ht; exact Htk).
  destruct HF as (_ & HF). destruct (HF Htk') as (Hinf & [Htm | (id & c & _ & _ & _ & Hmt')]);
    [|congruence].
  assert (Hd : dormant (step w ClickViewStats)).
  { split; [exact Hm|]. unfold scheduled. now rewrite Htm, Hinf. }
  destruct (dormant_run after _ Hd) as (K1 & _ & K3 & K4 & _).
  fold w' in K1, K3, K4.
  destruct (reachable_accounted before) as (_ & Hdt & _). fold w in Hdt.
  assert (Hsched : count is_schedule (step w ClickViewStats) = count is_schedule w)
    by (cbn [step]; rewrite count_call_navigate by reflexivity; cbn; lia).
  assert (Hdet : count is_detect (step w ClickViewStats) = count is_detect w)
    by (cbn [step]; rewrite count_call_navigate by reflexivity; cbn; lia).
  split; [congruence|]. split; [lia|]. split; [congruence|].
  pose proof (reachable_single_chain (before ++ ClickViewStats :: after)) as HS.
  pose proof (reachable_fresh_loop (before ++ ClickViewStats :: after)) as HF'.
  rewrite run_app in HS, HF'. cbn [run fold_left] in HS, HF'.
  fold (run initial before) in HS, HF'. fold w in HS, HF'.
  fold (run (step w ClickViewStats) after) in HS, HF'. fold w' in HS, HF'.
  destruct HF' as (_ & HF'). destruct (HF' ltac:(congruence)) as (_ & [E | (id & c & _ & _ & _ & Hmt')]);
    [exact E|].
  destruct (no_inference_after_leaving _ after Hm) as [Hm' _]. fold w' in Hm'.
  congruence.
Qed.

Lemma leaving_before_the_first_tick_stops_the_loop_witness :
  ticks (run (step (run initial [TfReadySettles true; CocoLoadSettles (Some 7%N)])
                   ClickViewStats)
             [TimerFires video_playing; TimerFires video_playing]) = 0%nat.
Proof.
  assert (Htk : ticks (run initial [TfReadySettles true; CocoLoadSettles (Some 7%N)])
                = 0%nat) by (vm_compute; reflexivity).
  exact (proj1 (leaving_before_the_first_tick_stops_the_loop
                  [TfReadySettles true; CocoLoadSettles (Some 7%N)]
                  [TimerFires video_playing; TimerFires video_playing] Htk)).
Defined.

(** X7. In every run the status line shows one of the three texts of the
    source, it shows "AI Ready. Get to work!" exactly when a model is set,
    and that is exactly when it is drawn in green. *)
Theorem status_follows_the_model :
  forall script : list input,
    let w := run initial script in
    (status w = "Loading AI Model..." \/ status w = "AI Ready. Get to work!"
     \/ status w = "Error loading AI. Check console.")
    /\ (status w = "AI Ready. Get to work!" <-> model w <> None)
    /\ (status w = "AI Ready. Get to work!"
        <-> status_class (model w) = "text-green-600").
Proof.
  intros script w.
  destruct (reachable_coherent script) as (_ & _ & _ & H4 & H5).
  fold w in H4, H5.
  assert (Hc : status_class (model w) = "text-green-600" <-> model w <> None).
  { destruct (model w); cbn; split; congruence. }
  assert (H : (status w = "Loading AI Model..." \/ status w = "AI Ready. Get to work!"
               \/ status w = "Error loading AI. Check console.")
              /\ (status w = "AI Ready. Get to work!" <-> model w <> None)).
  { destruct (phase_dec (phase w)) as [Hp|Hp].
    - destruct (H5 Hp) as [[Hm Hs] | (Hm & _ & _ & [Hs|Hs])]; rewrite Hs.
      + split; [auto|]. split; auto.
      + split; [auto|]. split; [discriminate | congruence].
      + split; [auto|]. split; [discriminate | congruence].
    - destruct (H4 Hp) as (Hm & Hs & _). rewrite Hs.
      split; [auto|]. split; [discriminate | congruence]. }
  destruct H as [H1 H2]. split; [exact H1|]. split; [exact H2|].
  rewrite Hc. exact H2.
Qed.

(** The tick whose detections match leaves exactly one trigger in the
    trace. *)
Lemma trigger_count_after :
  forall (before : list input) (predictions : list prediction)
         (captured : option model_handle) (h : N)
         (rest : list (option model_handle * N)),
    inflight (run initial before) = (captured, h) :: rest ->
    distracted (frame_height h) predictions = true ->
    count is_trigger (step (run initial before) (DetectSettles (Some predictions)))
    = 1%nat.
Proof.
  intros before predictions captured h rest Hi Hd.
  pose proof (reachable_single_chain before) as (H1 & _ & H3).
  assert (Ht : count is_trigger (run initial before) = 0%nat).
  { destruct H3 as [|[_ Hs]]; [assumption|]. unfold scheduled in Hs.
    rewrite Hi in Hs. rewrite Nat.add_comm in Hs. cbn [List.length] in Hs. lia. }
  cbn [step]. rewrite Hi. unfold runDetection_resume.
  unfold distracted in Hd.
  pose proof (distracted_run_log (frame_height h) is_trigger predictions
                ltac:(reflexivity)) as Hlog.
  destruct (distracted_run (frame_height h) predictions) as [log d].
  cbn [snd] in Hd. cbn [fst] in Hlog. subst d.
  rewrite count_call_navigate, count_emit, Hlog by reflexivity.
  unfold count in *. frame. rewrite Ht. reflexivity.
Qed.

(** X8. When the detections handed to a tick satisfy the trigger predicate,
    the App ends on the alert screen showing the mock insult, with the work
    screen unmounted; this holds as well when the user had already left
    the work screen while the inference was running. *)
Theorem trigger_shows_the_alert_screen :
  forall (before : list input) (predictions : list prediction)
         (captured : option model_handle) (h : N)
         (rest : list (option model_handle * N)),
    let w := run initial before in
    inflight w = (captured, h) :: rest ->
    distracted (frame_height h) predictions = true ->
    let w' := step w (DetectSettles (Some predictions)) in
    renderScreen (app w') = AlertScreenView mockInsult "Generated Meme Text"
    /\ distractionCount (app w') = of_Z 1
    /\ mounted w' = false.
Proof.
  intros before predictions captured h rest w Hi Hd w'. subst w' w.
  pose proof (reachable_accounted (before ++ [DetectSettles (Some predictions)]))
    as (_ & _ & _ & _ & _ & Hc).
  rewrite run_app in Hc. cbn [run fold_left] in Hc.
  fold (run initial before) in Hc.
  rewrite (trigger_count_after before predictions captured h rest Hi Hd) in Hc.
  assert (Ew' : step (run initial before) (DetectSettles (Some predictions))
                = call_navigate SCREENS.ALERT
                    (Some {| insult_field := Some mockInsult |})
                    (emit (fst (distracted_run (frame_height h) predictions))
                          (set_inflight rest (run initial before)))).
  { cbn [step]. rewrite Hi. unfold runDetection_resume.
    unfold distracted in Hd.
    destruct (distracted_run (frame_height h) predictions) as [log d].
    cbn [snd] in Hd. subst d. reflexivity. }
  split; [|split; [exact Hc|]].
  - rewrite Ew', call_navigate_app. reflexivity.
  - rewrite Ew'. unfold call_navigate. frame.
    change (renders_WorkScreen SCREENS.ALERT) with false. cbn [negb].
    rewrite andb_true_r.
    destruct (mounted (run initial before)) eqn:E; [reflexivity | exact E].
Qed.

Lemma trigger_shows_the_alert_screen_witness :
  renderScreen
    (app (step (run initial script_until_inference)
               (DetectSettles (Some [sample_phone]))))
  = AlertScreenView mockInsult "Generated Meme Text".
Proof.
  assert (Hi : inflight (run initial script_until_inference) = [(Some 7%N, 480%N)])
    by (vm_compute; reflexivity).
  assert (Hd : distracted (frame_height 480) [sample_phone] = true)
    by (vm_compute; reflexivity).
  exact (proj1 (trigger_shows_the_alert_screen script_until_inference
                  [sample_phone] (Some 7%N) 480%N [] Hi Hd)).
Defined.

Lemma add_one_saturates : add (of_Z (2 ^ 53)) (of_Z 1) = of_Z (2 ^ 53).
Proof. vm_compute. reflexivity. Qed.

(** X9. After [k] navigations to the alert screen the count is [k] up to
    2^53 and stays at 2^53 from there on: the number type cannot count
    further. *)
Theorem alert_count_saturates_at_2_53 :
  forall (k : nat) (data : option payload),
    distractionCount (Nat.iter k (navigate SCREENS.ALERT data) App_initial)
    = of_Z (Z.min (Z.of_nat k) (2 ^ 53)).
Proof.
  intros k data. induction k as [|k IH]; [reflexivity|].
  rewrite Nat.iter_succ, navigate_alert_count, IH.
  destruct (Z_lt_le_dec (Z.of_nat k) (2 ^ 53)) as [L|G].
  - rewrite Z.min_l by lia. rewrite add_one by lia.
    f_equal. rewrite Z.min_l by lia. lia.
  - rewrite !Z.min_r by lia. apply add_one_saturates.
Qed.

(** X10. A detection set triggers exactly when one of its parts does. *)
Theorem distracted_of_concatenation :
  forall (h : number) (D1 D2 : list prediction),
    distracted h (D1 ++ D2) = distracted h D1 || distracted h D2.
Proof.
  intros h D1 D2. rewrite !distracted_existsb. apply existsb_app.
Qed.

(** X11. A detection whose score or top edge is not a number never triggers,
    and no detection triggers when the frame height is not a number: every
    comparison with NaN is false. *)
Theorem nan_never_triggers :
  forall (h : number) (d : prediction),
    score d = S754_nan \/ bbox_y d = S754_nan \/ h = S754_nan ->
    distracted h [d] = false.
Proof.
  intros h d H. rewrite distracted_singleton.
  unfold distracted_callback, bbox_y in *.
  destruct (bbox d) as [[[x y] wd] ht]. cbn [snd].
  destruct H as [Hs | [Hy | Hh]].
  - rewrite Hs. unfold gt, SFltb.
    replace (SFcompare CONFIDENCE_THRESHOLD S754_nan) with (@None comparison)
      by (vm_compute; reflexivity).
    now rewrite andb_false_r.
  - rewrite Hy. apply andb_false_r.
  - rewrite Hh. unfold mul, lt, SFltb. cbn [SFmul].
    destruct y as [[|]|[|]| |s m e]; cbn [SFcompare]; apply andb_false_r.
Qed.

Lemma nan_never_triggers_witness :
  distracted (frame_height 480)
    [sample_detection "cell phone" S754_nan (of_Z 50)] = false.
Proof.
  exact (nan_never_triggers (frame_height 480)
           (sample_detection "cell phone" S754_nan (of_Z 50))
           (or_introl eq_refl)).
Defined.

(** X12. Every line the trigger check logs is about a detection of the set
    that has a watched class and a score above the threshold, whether or not
    its top edge is in the upper half; other detections are never logged. *)
Theorem only_confident_watched_detections_are_logged :
  forall (h : number) (D : list prediction) (e : event),
    In e (fst (distracted_run h D)) ->
    exists d, In d D
      /\ e = ConsoleLog (class d) (score d) (bbox_y d)
               (lt (bbox_y d) (mul h UPPER_HALF_THRESHOLD))
      /\ watched (class d)
      /\ gt (score d) CONFIDENCE_THRESHOLD = true.
Proof.
  intros h D e. unfold distracted_run.
  induction D as [|d D IH]; cbn [some fst]; [intros []|].
  assert (Hd : forall e', In e' (fst (distracted_callback h d)) ->
               e' = ConsoleLog (class d) (score d) (bbox_y d)
                      (lt (bbox_y d) (mul h UPPER_HALF_THRESHOLD))
               /\ watched (class d) /\ gt (score d) CONFIDENCE_THRESHOLD = true).
  { intros e'. unfold distracted_callback, bbox_y, watched.
    destruct (bbox d) as [[[x y] wd] ht]. cbn [fst].
    destruct (_ && _) eqn:E; [|intros []].
    intros [<-|[]]. apply andb_true_iff in E. destruct E as [E1 E2].
    rewrite orb_true_iff, !String.eqb_eq in E1. auto. }
  destruct (distracted_callback h d) as [log b]. cbn [fst] in Hd.
  destruct b.
  - intros Hin. exists d. split; [left; reflexivity | now apply Hd].
  - destruct (some (distracted_callback h) D) as [log' b']. cbn [fst] in *.
    intros Hin. apply in_app_or in Hin. destruct Hin as [Hin|Hin].
    + exists d. split; [left; reflexivity | now apply Hd].
    + destruct (IH Hin) as (d' & Hd' & Hrest). exists d'. split; [right; exact Hd' | exact Hrest].
Qed.

Lemma only_confident_watched_detections_are_logged_witness :
  exists d,
    In d [sample_detection "cell phone" (literal 9 1) (of_Z 300)]
    /\ ConsoleLog "cell phone" (literal 9 1) (of_Z 300) false
       = ConsoleLog (class d) (score d) (bbox_y d)
           (lt (bbox_y d) (mul (frame_height 480) UPPER_HALF_THRESHOLD))
    /\ watched (class d)
    /\ gt (score d) CONFIDENCE_THRESHOLD = true.
Proof.
  assert (Hin : In (ConsoleLog "cell phone" (literal 9 1) (of_Z 300) false)
                   (fst (distracted_run (frame_height 480)
                           [sample_detection "cell phone" (literal 9 1) (of_Z 300)])))
    by (vm_compute; auto).
  exact (only_confident_watched_detections_are_logged (frame_height 480)
           [sample_detection "cell phone" (literal 9 1) (of_Z 300)] _ Hin).
Defined.

(** X13. The check stops at the first detection that triggers: what comes
    after it in the set is neither examined nor logged. *)
Theorem check_stops_at_the_first_match :
  forall (h : number) (D1 D2 : list prediction) (d : prediction),
    triggering h d ->
    distracted_run h (D1 ++ d :: D2) = distracted_run h (D1 ++ [d]).
Proof.
  intros h D1 D2 d Hd. apply callback_true_iff in Hd.
  unfold distracted_run.
  induction D1 as [|d1 D1 IH]; cbn [Datatypes.app some].
  - destruct (distracted_callback h d) as [log b]. cbn [snd] in Hd. subst b.
    reflexivity.
  - destruct (distracted_callback h d1) as [log1 b1]. destruct b1; [reflexivity|].
    now rewrite IH.
Qed.

Lemma check_stops_at_the_first_match_witness :
  distracted_run (frame_height 480)
    ([] ++ sample_phone :: [sample_detection "remote" (literal 9 1) (of_Z 10)])
  = distracted_run (frame_height 480) ([] ++ [sample_phone]).
Proof.
  assert (Hd : triggering (frame_height 480) sample_phone).
  { split; [left; reflexivity|]. split; vm_compute; reflexivity. }
  exact (check_stops_at_the_first_match (frame_height 480) []
           [sample_detection "remote" (literal 9 1) (of_Z 10)] sample_phone Hd).
Defined.




(** X16. When [cocoSsd.load()] resolves while WorkScreen is mounted, the
    model is set, the status turns to "AI Ready. Get to work!", and the loop
    starts: the only thing done is to set one timeout of 400 ms, which the
    effect remembers for its cleanup. *)
Theorem loop_starts_when_the_model_loads :
  forall (before : list input) (m : model_handle),
    let w := run initial before in
    phase w = AwaitCocoLoad ->
    mounted w = true ->
    let w' := step w (CocoLoadSettles (Some m)) in
    model w' = Some m
    /\ status w' = "AI Ready. Get to work!"
    /\ timers w' = [(next_id w, Some m)]
    /\ timerId w' = Some (next_id w)
    /\ trace w' = trace w ++ [SetTimeout (next_id w) DETECTION_INTERVAL_MS].
Proof.
  intros before m w Hp Hm w'.
  destruct (reachable_coherent before) as (_ & _ & _ & H4 & _). fold w in H4.
  destruct H4 as (_ & _ & Hid & Ht & _); [congruence|].
  unfold w'. cbn [step]. rewrite Hp. unfold loadModel_done. frame. rewrite Hm.
  unfold loop_cleanup. frame. rewrite Hid.
  unfold loop_effect. frame. unfold setTimeout. frame. cbn [fst snd]. frame.
  rewrite Ht. repeat split.
Qed.

Lemma loop_starts_when_the_model_loads_witness :
  timers (step (run initial [TfReadySettles true]) (CocoLoadSettles (Some 7%N)))
  = [(next_id (run initial [TfReadySettles true]), Some 7%N)].
Proof.
  assert (Hp : phase (run initial [TfReadySettles true]) = AwaitCocoLoad)
    by (vm_compute; reflexivity).
  assert (Hm : mounted (run initial [TfReadySettles true]) = true)
    by (vm_compute; reflexivity).
  pose proof (loop_starts_when_the_model_loads [TfReadySettles true] 7%N Hp Hm) as H.
  cbv zeta in H. destruct H as (_ & _ & H & _). exact H.
Defined.

(** X17. The App keeps no history of screens: a navigation to a screen other
    than the alert leaves no mark once the next navigation is made. *)
Theorem navigation_keeps_no_history :
  forall (st : app_state) (s1 s2 : string) (d1 d2 : option payload),
    s1 <> SCREENS.ALERT ->
    navigate s2 d2 (navigate s1 d1 st) = navigate s2 d2 st.
Proof.
  intros st s1 s2 d1 d2 Hs. unfold navigate.
  destruct (String.eqb_spec s1 SCREENS.ALERT); [contradiction|].
  cbn [currentScreen insult distractionCount].
  destruct (s2 =? SCREENS.ALERT)%string; reflexivity.
Qed.

Lemma navigation_keeps_no_history_witness :
  navigate SCREENS.WORK None (navigate SCREENS.STATS None App_initial)
  = navigate SCREENS.WORK None App_initial.
Proof.
  apply navigation_keeps_no_history. discriminate.
Defined.

Lemma status_follows_the_model_witness :
  status (run initial [TfReadySettles true; CocoLoadSettles (Some 7%N)])
  = "AI Ready. Get to work!".
Proof.
  assert (Hm : model (run initial [TfReadySettles true; CocoLoadSettles (Some 7%N)])
               <> None) by (vm_compute; discriminate).
  exact (proj2 (proj1 (proj2 (status_follows_the_model
                                [TfReadySettles true; CocoLoadSettles (Some 7%N)])))
               Hm).
Defined.

